(** * A_flow-meter: the parameter model of the flow-valve add-in

    Shallow embedding of the [FlowValve] class of [A_flow-meter.py] (its
    constructor, its property getters and setters, [calculate_P],
    [calculate_WT] and [create_flow_valve]) and of the numeric part of the
    two dialog handlers ([FlowValveCommandCreatedHandler.notify] and
    [FlowValveCommandExecuteHandler.notify]).

    Numbers: a Python [float] (or an [int] literal mixed with floats by true
    division) is the real number it denotes, and [+], [-], [*], [/] and
    [math.cos] are computed exactly, without rounding.  [math.pi] is the
    binary64 number it is, a rational a little below the real [PI]: this is
    why [cos(pi/2 - theta)] is not zero at [theta = 0] or [theta = pi], in
    the program as in the model.  The [ZeroDivisionError] of [/] is
    modelled explicitly.  The module [Binary64] replays purely arithmetic
    expressions on IEEE binary64 numbers. *)

From Stdlib Require Import Reals Lra Lia ZArith String List.
From Stdlib Require Import Machin PrimFloat.
Import ListNotations.

Local Open Scope R_scope.

(** ** Python values, exceptions and arithmetic *)

Inductive PyExc : Set :=
| ZeroDivisionError
| AttributeError
| UnboundLocalError.

(** The result of evaluating an expression or calling a method. *)
Inductive outcome (A : Type) : Type :=
| Returned (a : A)
| Raised (e : PyExc).

Arguments Returned {A} a.
Arguments Raised {A} e.

(** [round(x)] returns an [int], [round(x, n)] a [float]: the two are kept
    apart, since an f-string prints them differently ([4] and [4.0]). *)
Inductive PyNumber : Set :=
| PyInt (z : Z)
| PyFloat (x : R).

(** [a / b] *)
Definition truediv (a b : R) : outcome R :=
  if Req_dec_T b 0 then Raised ZeroDivisionError else Returned (a / b).

(** [math.pi]: the binary64 number nearest to the real [PI],
    [3.141592653589793115997963...], that is [884279719003555 / 2^48]. *)
Definition pi : R := 884279719003555 / 281474976710656.

(** [math.radians(x)] *)
Definition radians (x : R) : R := x * (pi / 180).

(** Rounding to the nearest integer, ties to the even one: what [round]
    does on the scaled value. *)
Definition round_half_even (x : R) : Z :=
  let n := Zfloor x in
  let r := x - IZR n in
  if Rlt_dec r (/ 2) then n
  else if Rlt_dec (/ 2) r then (n + 1)%Z
  else if Z.even n then n else (n + 1)%Z.

(** [round(x)] *)
Definition round0 (x : R) : PyNumber := PyInt (round_half_even x).

(** [round(x, ndigits)] *)
Definition round (x : R) (ndigits : nat) : PyNumber :=
  PyFloat (IZR (round_half_even (x * 10 ^ ndigits)) / 10 ^ ndigits).


(** ** Global design parameters *)

Definition defaultHoles : R := 6.
Definition defaultRH : R := 3.
Definition defaultLength : R := 100.
Definition defaultTheta : R := radians 70.
Definition defaultD : R := 40.

(** ** The class [FlowValve] *)

Record FlowValve : Type := mkFlowValve {
  _H : R;       (* number of holes for bolts *)
  _RH : R;      (* radius for bolts *)
  _theta : R;   (* angle between sensor-pipe and main-pipe *)
  _D : R;       (* main pipe diameter *)
  _L : R;
  _WT : R;      (* wall thickness of main pipe *)
  _d : R;       (* sensor pipe diameter *)
  _P : R        (* distance between transducers *)
}.

(** A method runs on the object, may mutate it, and returns or raises.  The
    object is returned in both cases: an attribute assigned before the
    exception stays assigned. *)
Definition method (A : Type) : Type := FlowValve -> FlowValve * outcome A.

Definition ret {A} (a : A) : method A := fun self => (self, Returned a).

Definition bind {A B} (m : method A) (k : A -> method B) : method B :=
  fun self =>
    match m self with
    | (self', Returned a) => k a self'
    | (self', Raised e) => (self', Raised e)
    end.

Definition lift {A} (o : outcome A) : method A := fun self => (self, o).

(** Reading an attribute or a property of [self]. *)
Definition get {A} (f : FlowValve -> A) : method A :=
  fun self => (self, Returned (f self)).

(** An attribute assignment [self._x = v]. *)
Definition modify (f : FlowValve -> FlowValve) : method unit :=
  fun self => (f self, Returned tt).

Declare Scope method_scope.
Delimit Scope method_scope with method.
Bind Scope method_scope with method.

Notation "x <- m ;; k" := (bind m (fun x => k))
  (at level 61, m at next level, right associativity) : method_scope.
Notation "m ;; k" := (bind m (fun _ => k))
  (at level 61, right associativity) : method_scope.

Local Open Scope method_scope.

Definition with_H (v : R) (s : FlowValve) : FlowValve :=
  mkFlowValve v (_RH s) (_theta s) (_D s) (_L s) (_WT s) (_d s) (_P s).
Definition with_RH (v : R) (s : FlowValve) : FlowValve :=
  mkFlowValve (_H s) v (_theta s) (_D s) (_L s) (_WT s) (_d s) (_P s).
Definition with_theta (v : R) (s : FlowValve) : FlowValve :=
  mkFlowValve (_H s) (_RH s) v (_D s) (_L s) (_WT s) (_d s) (_P s).
Definition with_D (v : R) (s : FlowValve) : FlowValve :=
  mkFlowValve (_H s) (_RH s) (_theta s) v (_L s) (_WT s) (_d s) (_P s).
Definition with_L (v : R) (s : FlowValve) : FlowValve :=
  mkFlowValve (_H s) (_RH s) (_theta s) (_D s) v (_WT s) (_d s) (_P s).
Definition with_WT (v : R) (s : FlowValve) : FlowValve :=
  mkFlowValve (_H s) (_RH s) (_theta s) (_D s) (_L s) v (_d s) (_P s).
Definition with_d (v : R) (s : FlowValve) : FlowValve :=
  mkFlowValve (_H s) (_RH s) (_theta s) (_D s) (_L s) (_WT s) v (_P s).
Definition with_P (v : R) (s : FlowValve) : FlowValve :=
  mkFlowValve (_H s) (_RH s) (_theta s) (_D s) (_L s) (_WT s) (_d s) v.

(** *** Properties: the getters *)

Definition H (self : FlowValve) : R := _H self.
Definition RH (self : FlowValve) : R := _RH self.
Definition L (self : FlowValve) : R := _L self.
Definition theta (self : FlowValve) : R := _theta self.
Definition D (self : FlowValve) : R := _D self.
Definition P (self : FlowValve) : R := _P self.
Definition WT (self : FlowValve) : R := _WT self.

(** *** Methods *)

(** The division raises only where the exact [cos(pi/2 - theta)] is zero;
    the angles 0 and [pi] are not such angles (lemmas [cos_at_0_neq0] and
    [cos_at_pi_neq0]), [pi/2] being a little below the quarter turn. *)
Definition calculate_P : method R :=
  d <- get _D ;;
  t <- get _theta ;;
  p <- lift (truediv d (cos (pi / 2 - t))) ;;
  modify (with_P p) ;;
  get _P.

Definition calculate_WT : method R :=
  d0 <- get _D ;;
  d1 <- get D ;;
  d2 <- get D ;;
  modify (with_WT (d0 / 2 - (d1 / 2 - d2 / 10))) ;;
  get _WT.

(** *** Properties: the setters *)

Definition H_setter (value : R) : method unit :=
  modify (with_H value).

Definition RH_setter (value : R) : method unit :=
  modify (with_RH value).

Definition L_setter (value : R) : method unit :=
  modify (with_L value).

Definition theta_setter (value : R) : method unit :=
  modify (with_theta value) ;;
  _ <- calculate_P ;;
  ret tt.

Definition D_setter (value : R) : method unit :=
  modify (with_D value) ;;
  _ <- calculate_P ;;
  ret tt.

(** *** The constructor *)

Definition __init__ : method unit :=
  modify (with_H defaultHoles) ;;
  modify (with_RH defaultRH) ;;
  modify (with_theta defaultTheta) ;;
  modify (with_D defaultD) ;;
  modify (with_L defaultLength) ;;
  wt <- calculate_WT ;;
  modify (with_WT wt) ;;
  modify (with_d 15) ;;
  p <- calculate_P ;;
  modify (with_P p).

(** The object that [__init__] receives has no attribute yet.  A record has
    all its fields, so they start at an arbitrary value; [__init__] assigns
    each of them before it is read (lemma [init_any_blank]). *)
Definition blank : FlowValve := mkFlowValve 0 0 0 0 0 0 0 0.

(** [FlowValve()] *)
Definition new_FlowValve : outcome FlowValve :=
  match __init__ blank with
  | (self, Returned _) => Returned self
  | (_, Raised e) => Raised e
  end.

(** *** A caller's view: assignments to the properties *)

Inductive assignment : Set :=
| assign_H (value : R)
| assign_RH (value : R)
| assign_L (value : R)
| assign_theta (value : R)
| assign_D (value : R).

(** [flow_valve.x = value] *)
Definition assign (a : assignment) : method unit :=
  match a with
  | assign_H v => H_setter v
  | assign_RH v => RH_setter v
  | assign_L v => L_setter v
  | assign_theta v => theta_setter v
  | assign_D v => D_setter v
  end.

(** A block of assignments: the first exception ends it. *)
Fixpoint exec (prog : list assignment) : method unit :=
  match prog with
  | [] => ret tt
  | a :: rest => assign a ;; exec rest
  end.

(** The objects the add-in works with: a constructed one, and any object a
    property was assigned on, whether the assignment returned or raised.
    Direct calls of [calculate_P] and [calculate_WT] are not among the
    steps: the add-in calls these two methods from [__init__] and from the
    setters only. *)
Inductive reachable : FlowValve -> Prop :=
| reachable_new self :
    new_FlowValve = Returned self -> reachable self
| reachable_assign self a :
    reachable self -> reachable (fst (assign a self)).

(** ** The dialog handlers *)

(** The inputs of the command dialog.  [expression] stands for the number
    that [unitsMgr.evaluateExpression(input.expression, units)] returns for
    the input, in the host's internal units (radians for ["deg"]).
    [formattedText] stands for the text [f'~ {v} cm'], given by [v]. *)
Inductive CommandInput : Type :=
| ValueCommandInput (id : string) (expression : R)
| TextBoxCommandInput (id : string) (formattedText : PyNumber).

Definition id (input : CommandInput) : string :=
  match input with
  | ValueCommandInput i _ => i
  | TextBoxCommandInput i _ => i
  end.

(** [flow_valve.x = unitsMgr.evaluateExpression(input.expression, units)];
    a text box has no [expression]. *)
Definition on_expression (input : CommandInput) (setter : R -> method unit)
  : method CommandInput :=
  match input with
  | ValueCommandInput _ e => setter e ;; ret input
  | TextBoxCommandInput _ _ => lift (Raised AttributeError)
  end.

(** [input.formattedText = f'~ {v} cm']; the dialog shows the text of its
    text boxes only, a value input stays as it is. *)
Definition set_formattedText (input : CommandInput) (v : PyNumber)
  : CommandInput :=
  match input with
  | ValueCommandInput i e => ValueCommandInput i e
  | TextBoxCommandInput i _ => TextBoxCommandInput i v
  end.

(** The body of the loop of [FlowValveCommandExecuteHandler.notify]. *)
Definition execute_input (input : CommandInput) : method CommandInput :=
  if (id input =? "theta")%string then on_expression input theta_setter
  else if (id input =? "D")%string then on_expression input D_setter
  else if (id input =? "L")%string then on_expression input L_setter
  else if (id input =? "RH")%string then on_expression input RH_setter
  else if (id input =? "H")%string then on_expression input H_setter
  else if (id input =? "P")%string then
    p <- get P ;; ret (set_formattedText input (round p 2))
  else if (id input =? "WT")%string then
    wt <- get WT ;; ret (set_formattedText input (round wt 2))
  else ret input.

Fixpoint execute_inputs (inputs : list CommandInput)
  : method (list CommandInput) :=
  match inputs with
  | [] => ret []
  | input :: rest =>
      input' <- execute_input input ;;
      rest' <- execute_inputs rest ;;
      ret (input' :: rest')
  end.

(** What [FlowValveCommandExecuteHandler.notify] ends in: either
    [flow_valve.create_flow_valve()] is called on the object the loop left
    (with the inputs as the loop left them), or the [except] branch shows
    the message box. *)
Inductive ExecuteResult : Type :=
| Constructed (flow_valve : FlowValve) (inputs : list CommandInput)
| Failed (e : PyExc).

Definition notify_execute (inputs : list CommandInput) : ExecuteResult :=
  match new_FlowValve with
  | Raised e => Failed e
  | Returned flow_valve =>
      match execute_inputs inputs flow_valve with
      | (flow_valve', Returned inputs') => Constructed flow_valve' inputs'
      | (_, Raised e) => Failed e
      end
  end.

(** The quantity of each of the bolt-hole patterns of [create_flow_valve]:
    [CircularPatternInput.quantity = ValueInput.createByReal(self.H)]. *)
Definition pattern_quantity (self : FlowValve) : R := H self.


(** The dialog after the user has edited the five value inputs. *)
Definition dialog (th d l rh h : R) (p wt : PyNumber) : list CommandInput :=
  [ ValueCommandInput "theta" th;
    ValueCommandInput "D" d;
    ValueCommandInput "L" l;
    ValueCommandInput "RH" rh;
    ValueCommandInput "H" h;
    TextBoxCommandInput "P" p;
    TextBoxCommandInput "WT" wt ].

(** The object [FlowValve()] returns (lemma [new_FlowValve_returns]). *)
Definition default_valve : FlowValve :=
  mkFlowValve defaultHoles defaultRH defaultTheta defaultD defaultLength
    (defaultD / 2 - (defaultD / 2 - defaultD / 10)) 15
    (defaultD / cos (pi / 2 - defaultTheta)).

(** The invariant of the transducer distance: the stored one is the one of
    the current angle and diameter, wherever that one is defined. *)
Definition P_current (self : FlowValve) : Prop :=
  cos (pi / 2 - theta self) <> 0 ->
  P self = D self / cos (pi / 2 - theta self).

(** ** The host: what [create_flow_valve] asks of the CAD application

    The geometry kernel is not modelled.  A host call is recorded with the
    arguments the script gives it; the objects the host returns (planes,
    axes, sketches, features) are known by their rank of creation. *)

(** [math.degrees(x)] *)
Definition degrees (x : R) : R := x * (180 / pi).

Inductive Point : Type :=
| center_global                      (* new_comp.originConstructionPoint.geometry *)
| Point3D (x y z : R)                (* adsk.core.Point3D.create(x, y, z) *)
| modelToSketchSpace (p : Point).    (* sketch.modelToSketchSpace(p) *)

(** [sketch.profiles.item(index)] *)
Inductive Profile : Type :=
| profiles_item (sketch index : nat).

(** The [profile] argument of [extrudeFeatures.createInput]: one profile,
    or the collection of all the profiles of a sketch. *)
Inductive Profiles : Type :=
| one_profile (p : Profile)
| all_profiles (sketch : nat).

Inductive PlanarEntity : Type :=
| xYConstructionPlane
| yZConstructionPlane
| constructionPlane (plane : nat)
| profile_plane (p : Profile).

Inductive Axis : Type :=
| xConstructionAxis
| zConstructionAxis
| constructionAxis (axis : nat)
| sketchLine (sketch line : nat).

Inductive PlaneInput : Type :=
| setByAngle (linearEntity : Axis) (angle : R) (planarEntity : PlanarEntity)
| setByOffset (planarEntity : PlanarEntity) (offset : R).

Inductive FeatureOperations : Set :=
| NewBodyFeatureOperation
| CutFeatureOperation
| JoinFeatureOperation.

Inductive HostCall : Type :=
| messageBox (text : string)
| set_name (D_cm theta_deg : R)
    (* new_comp.name = f'Flow-valve (D{D_cm}cm θ{theta_deg}deg)' *)
| constructionPlanes_add (input : PlaneInput)
| constructionAxes_add (circularFace_of : nat)
    (* setByCircularFace, of the first cylinder face of that feature's body *)
| sketches_add (planarEntity : PlanarEntity)
| addByCenterRadius (sketch : nat) (centerPoint : Point) (radius : R)
| addByTwoPoints (sketch : nat) (startPoint endPoint : Point)
| addByCenterStartSweep (sketch : nat) (center start : Point) (sweep : R)
| extrudeFeatures_add (profile : Profiles) (operation : FeatureOperations)
    (isSymmetric : bool) (distance : R)
| revolveFeatures_add (profile : Profile) (axis : Axis)
    (operation : FeatureOperations) (isSymmetric : bool) (angle_deg : R)
| circularPatternFeatures_add (entity : nat) (inputAxis : Axis)
    (quantity : R) (totalAngle_deg : R) (isSymmetric : bool).

Definition is_plane (c : HostCall) : bool :=
  match c with constructionPlanes_add _ => true | _ => false end.

Definition is_axis (c : HostCall) : bool :=
  match c with constructionAxes_add _ => true | _ => false end.

Definition is_sketch (c : HostCall) : bool :=
  match c with sketches_add _ => true | _ => false end.

Definition is_line_of (sketch : nat) (c : HostCall) : bool :=
  match c with addByTwoPoints s _ _ => Nat.eqb s sketch | _ => false end.

Definition is_feature (c : HostCall) : bool :=
  match c with
  | extrudeFeatures_add _ _ _ _ => true
  | revolveFeatures_add _ _ _ _ _ => true
  | circularPatternFeatures_add _ _ _ _ _ => true
  | _ => false
  end.

(** A script of host calls: it appends to the calls made so far and gets
    back what the host returns. *)
Definition host (A : Type) : Type := list HostCall -> A * list HostCall.

Definition host_ret {A} (a : A) : host A := fun calls => (a, calls).

Definition host_bind {A B} (m : host A) (k : A -> host B) : host B :=
  fun calls => let (a, calls') := m calls in k a calls'.

(** A call whose result is the rank of the created object among the calls
    that [kind] selects. *)
Definition call (kind : HostCall -> bool) (c : HostCall) : host nat :=
  fun calls => (List.length (filter kind calls), calls ++ [c]).

Definition call_ (c : HostCall) : host unit :=
  fun calls => (tt, calls ++ [c]).

Declare Scope host_scope.
Delimit Scope host_scope with host.
Bind Scope host_scope with host.

Notation "x <- m ;; k" := (host_bind m (fun x => k))
  (at level 61, m at next level, right associativity) : host_scope.
Notation "m ;; k" := (host_bind m (fun _ => k))
  (at level 61, right associativity) : host_scope.

(** A sketch circle, as far as the script uses it. *)
Record SketchCircle : Type := mkSketchCircle {
  centerSketchPoint : Point;
  circle_radius : R
}.

Definition sketchCircles_addByCenterRadius
    (sketch : nat) (centerPoint : Point) (radius : R) : host SketchCircle :=
  (call_ (addByCenterRadius sketch centerPoint radius) ;;
   host_ret (mkSketchCircle centerPoint radius))%host.

Definition sketchLines_addByTwoPoints
    (sketch : nat) (startPoint endPoint : Point) : host Axis :=
  (n <- call (is_line_of sketch) (addByTwoPoints sketch startPoint endPoint) ;;
   host_ret (sketchLine sketch n))%host.

(** [createInput], [setDistanceExtent] and [extrudeFeatures.add] *)
Definition extrude (profile : Profiles) (operation : FeatureOperations)
    (isSymmetric : bool) (distance : R) : host nat :=
  call is_feature (extrudeFeatures_add profile operation isSymmetric distance).

(** The circular pattern of one feature: [createInput], [quantity],
    [totalAngle = '360 deg'], [isSymmetric = False] and [add]. *)
Definition circular_pattern (entity : nat) (inputAxis : Axis) (quantity : R)
  : host nat :=
  call is_feature
    (circularPatternFeatures_add entity inputAxis quantity 360 false).

(** [l[i]] on the arrays of the handle, whose indices stay in range. *)
Definition getitem (l : list R) (i : nat) : R := nth i l 0.

(** The two loops of the handle:
    [for i in posArray: sketchLines.addByTwoPoints(...)]. *)
Fixpoint handle_lines (sketch : nat) (zArray yArray : list R)
    (posArray : list nat) : host unit :=
  match posArray with
  | [] => host_ret tt
  | i :: rest =>
      (let startPoint := Point3D (getitem zArray i) (getitem yArray i) 0 in
       let endPoint :=
         Point3D (getitem zArray (i + 1)) (getitem yArray (i + 1)) 0 in
       _ <- sketchLines_addByTwoPoints sketch startPoint endPoint ;;
       handle_lines sketch zArray yArray rest)%host
  end.

(** *** [create_flow_valve]

    The method is one straight line of host calls; it is cut here at its
    section comments.  The variables a later section still reads
    ([pipe_sp_profile], [const_axis_sp], [sketch_sp]) are handed on. *)

(** SENSOR PIPE and SENSOR PIPE SPOOL PIECE *)
Definition sensor_pipe (self : FlowValve) : host (Profile * Axis * nat) :=
  (* Construction Plane *)
  (const_plane_sp <- call is_plane
     (constructionPlanes_add
        (setByAngle xConstructionAxis (theta self) xYConstructionPlane)) ;;
   (* Sketch *)
   sketch_sp <- call is_sketch (sketches_add (constructionPlane const_plane_sp)) ;;
   let center_sp := modelToSketchSpace center_global in
   circle_sp_o <- sketchCircles_addByCenterRadius sketch_sp center_sp
     (_d self / 2) ;;
   circle_sp_i <- sketchCircles_addByCenterRadius sketch_sp
     (centerSketchPoint circle_sp_o) (_d self / 2 - _d self / 10) ;;
   (* Extrude *)
   let pipe_sp_profile := profiles_item sketch_sp 0 in
   bodyOne <- extrude (one_profile pipe_sp_profile) NewBodyFeatureOperation
     true (P self / 2 + 70) ;;
   (* Top spool piece *)
   const_axis_sp <- call is_axis (constructionAxes_add bodyOne) ;;
   const_offsetPlane <- call is_plane
     (constructionPlanes_add
        (setByOffset (profile_plane pipe_sp_profile) (P self / 2 + 70))) ;;
   let center_sp := Point3D 0 0 0 in
   sketch_SP <- call is_sketch
     (sketches_add (constructionPlane const_offsetPlane)) ;;
   circle_SP_o <- sketchCircles_addByCenterRadius sketch_SP center_sp
     (_d self - _d self / 10) ;;
   circle_SP_i <- sketchCircles_addByCenterRadius sketch_SP center_sp
     (_d self / 2 - _d self / 10) ;;
   bodyTwo <- extrude (one_profile (profiles_item sketch_SP 0))
     NewBodyFeatureOperation true 1 ;;
   parent_sketch <- sketchCircles_addByCenterRadius sketch_SP
     (Point3D 0 (_d self - 5) 0) 2 ;;
   circle_cut <- extrude (one_profile (profiles_item sketch_SP 2))
     CutFeatureOperation true (0.2 * _d self) ;;
   CircularPattern <- circular_pattern circle_cut
     (constructionAxis const_axis_sp) (H self) ;;
   (* Bottom spool piece *)
   const_axis_sp <- call is_axis (constructionAxes_add bodyOne) ;;
   const_offsetPlane <- call is_plane
     (constructionPlanes_add
        (setByOffset (profile_plane pipe_sp_profile) (- P self / 2 - 70))) ;;
   let center_sp := Point3D 0 0 0 in
   sketch_SP <- call is_sketch
     (sketches_add (constructionPlane const_offsetPlane)) ;;
   circle_SP_o <- sketchCircles_addByCenterRadius sketch_SP center_sp
     (_d self - _d self / 10) ;;
   circle_SP_i <- sketchCircles_addByCenterRadius sketch_SP center_sp
     (_d self / 2 - _d self / 10) ;;
   bodyTwo <- extrude (one_profile (profiles_item sketch_SP 0))
     NewBodyFeatureOperation true 1 ;;
   parent_sketch <- sketchCircles_addByCenterRadius sketch_SP
     (Point3D 0 (_d self - 5) 0) 2 ;;
   circle_cut <- extrude (one_profile (profiles_item sketch_SP 2))
     CutFeatureOperation true (0.2 * _d self) ;;
   CircularPattern <- circular_pattern circle_cut
     (constructionAxis const_axis_sp) (H self) ;;
   host_ret (pipe_sp_profile, constructionAxis const_axis_sp, sketch_sp))%host.

(** MAIN PIPE, with its right and left spool pieces *)
Definition main_pipe (self : FlowValve) (sketch_sp : nat) : host unit :=
  (* Sketch *)
  (sketch_mp <- call is_sketch (sketches_add xYConstructionPlane) ;;
   let center_mp := modelToSketchSpace center_global in
   circle_mp_o <- sketchCircles_addByCenterRadius sketch_mp center_mp
     (D self / 2) ;;
   circle_mp_i <- sketchCircles_addByCenterRadius sketch_mp
     (centerSketchPoint circle_mp_o) (D self / 2 - D self / 10) ;;
   (* Extrude *)
   _ <- extrude (all_profiles sketch_mp) CutFeatureOperation true
     (L self / 2) ;;
   (* Join (main pipe and sensor pipe) *)
   _ <- extrude (one_profile (profiles_item sketch_mp 0))
     JoinFeatureOperation true (L self / 2) ;;
   (* Extrude Cut *)
   _ <- extrude (one_profile (profiles_item sketch_sp 1))
     CutFeatureOperation true (P self / 2 + 70 * 3) ;;
   (* Spool piece right *)
   const_offsetPlane <- call is_plane
     (constructionPlanes_add (setByOffset xYConstructionPlane (L self / 2))) ;;
   sketch_spool <- call is_sketch
     (sketches_add (constructionPlane const_offsetPlane)) ;;
   let center_spool := modelToSketchSpace (Point3D 0 0 (L self / 2)) in
   circle_spool_o <- sketchCircles_addByCenterRadius sketch_spool center_spool
     (D self) ;;
   circle_spool_i <- sketchCircles_addByCenterRadius sketch_spool
     (centerSketchPoint circle_spool_o) (D self / 2 - D self / 10) ;;
   _ <- extrude (one_profile (profiles_item sketch_spool 0))
     NewBodyFeatureOperation false (0.2 * D self) ;;
   parent_sketch <- sketchCircles_addByCenterRadius sketch_spool
     (Point3D 0 (D self - D self / 5) 0) (RH self) ;;
   circle_cut <- extrude (one_profile (profiles_item sketch_spool 2))
     CutFeatureOperation true (0.2 * D self) ;;
   CircularPattern <- circular_pattern circle_cut zConstructionAxis (H self) ;;
   (* Spool piece left *)
   const_offsetPlane <- call is_plane
     (constructionPlanes_add (setByOffset xYConstructionPlane (L self / 2))) ;;
   sketch_spool <- call is_sketch
     (sketches_add (constructionPlane const_offsetPlane)) ;;
   let center_spool := modelToSketchSpace (Point3D 0 0 (- L self / 2)) in
   circle_spool_o <- sketchCircles_addByCenterRadius sketch_spool center_spool
     (D self) ;;
   circle_spool_i <- sketchCircles_addByCenterRadius sketch_spool
     (centerSketchPoint circle_spool_o) (D self / 2 - D self / 10) ;;
   _ <- extrude (one_profile (profiles_item sketch_spool 0))
     NewBodyFeatureOperation false (-0.2 * D self) ;;
   parent_sketch_2 <- sketchCircles_addByCenterRadius sketch_spool
     (Point3D 0 (D self - D self / 5) (- L self)) (RH self) ;;
   circle_cut <- extrude (one_profile (profiles_item sketch_spool 2))
     CutFeatureOperation true (0.2 * D self) ;;
   CircularPattern <- circular_pattern circle_cut zConstructionAxis (H self) ;;
   host_ret tt)%host.

(** BALL VALVE: bottom spool piece, pipe, pipe box, ball, top spool piece *)
Definition ball_valve (self : FlowValve) (pipe_sp_profile : Profile)
    (const_axis_sp : Axis) : host unit :=
  (* Bottom spool piece *)
  (const_offsetPlane <- call is_plane
     (constructionPlanes_add
        (setByOffset (profile_plane pipe_sp_profile) (P self / 2 + 71))) ;;
   let center_sp := Point3D 0 0 0 in
   sketch_SP <- call is_sketch
     (sketches_add (constructionPlane const_offsetPlane)) ;;
   circle_SP_o <- sketchCircles_addByCenterRadius sketch_SP center_sp
     (_d self - _d self / 10) ;;
   circle_SP_i <- sketchCircles_addByCenterRadius sketch_SP center_sp
     (_d self / 2 - _d self / 10) ;;
   bodyTwo <- extrude (one_profile (profiles_item sketch_SP 0))
     NewBodyFeatureOperation false 2 ;;
   parent_sketch <- sketchCircles_addByCenterRadius sketch_SP
     (Point3D 0 (_d self - 5) 0) 2 ;;
   circle_cut <- extrude (one_profile (profiles_item sketch_SP 2))
     CutFeatureOperation false (0.2 * _d self) ;;
   CircularPattern <- circular_pattern circle_cut const_axis_sp (H self) ;;
   (* Pipe *)
   const_offsetPlane <- call is_plane
     (constructionPlanes_add
        (setByOffset (profile_plane pipe_sp_profile) (P self / 2 + 72))) ;;
   let center_sp := Point3D 0 0 0 in
   sketch_SP <- call is_sketch
     (sketches_add (constructionPlane const_offsetPlane)) ;;
   circle_SP_o <- sketchCircles_addByCenterRadius sketch_SP center_sp
     (_d self / 2) ;;
   circle_SP_i <- sketchCircles_addByCenterRadius sketch_SP center_sp
     (_d self / 2 - _d self / 10) ;;
   bodyBallValvePipe <- extrude (one_profile (profiles_item sketch_SP 0))
     NewBodyFeatureOperation false 30 ;;
   (* Pipe box *)
   const_offsetPlane <- call is_plane
     (constructionPlanes_add
        (setByOffset (profile_plane pipe_sp_profile) (P self / 2 + 87))) ;;
   let center_sp := Point3D 0 0 0 in
   sketch_SP <- call is_sketch
     (sketches_add (constructionPlane const_offsetPlane)) ;;
   circle_SP_i <- sketchCircles_addByCenterRadius sketch_SP center_sp
     (_d self / 2) ;;
   circle_SP_o <- sketchCircles_addByCenterRadius sketch_SP center_sp
     (_d self / 2 + 6) ;;
   boxBallValvePipe <- extrude (one_profile (profiles_item sketch_SP 1))
     JoinFeatureOperation true 7.5 ;;
   (* Ball *)
   const_offsetPlane <- call is_plane
     (constructionPlanes_add
        (setByOffset (profile_plane pipe_sp_profile) (P self / 2 + 87))) ;;
   let center_sp := Point3D 0 0 0 in
   sketch_SP <- call is_sketch
     (sketches_add (constructionPlane const_offsetPlane)) ;;
   circle_SP_Ball <- sketchCircles_addByCenterRadius sketch_SP center_sp
     (_d self / 2 - _d self / 10) ;;
   line_halfCircle_ball <- sketchLines_addByTwoPoints sketch_SP
     (Point3D (_d self / 2 - _d self / 10) 0 0)
     (Point3D (- _d self / 2 + _d self / 10) 0 0) ;;
   bodyBallValveBall <- call is_feature
     (revolveFeatures_add (profiles_item sketch_SP 0) line_halfCircle_ball
        NewBodyFeatureOperation false 360) ;;
   sketch_SP <- call is_sketch
     (sketches_add (constructionPlane const_offsetPlane)) ;;
   circle_cut_ball <- sketchCircles_addByCenterRadius sketch_SP center_sp
     (_d self / 2 - _d self / 4) ;;
   bodyBallValveBallHole <- extrude (one_profile (profiles_item sketch_SP 0))
     CutFeatureOperation true (_d self / 2) ;;
   (* Top spool piece *)
   const_offsetPlane <- call is_plane
     (constructionPlanes_add
        (setByOffset (profile_plane pipe_sp_profile) (P self / 2 + 102))) ;;
   let center_sp := Point3D 0 0 0 in
   sketch_SP <- call is_sketch
     (sketches_add (constructionPlane const_offsetPlane)) ;;
   circle_SP_o <- sketchCircles_addByCenterRadius sketch_SP center_sp
     (_d self - _d self / 10) ;;
   circle_SP_i <- sketchCircles_addByCenterRadius sketch_SP center_sp
     (_d self / 2 - _d self / 10) ;;
   bodyTwo <- extrude (one_profile (profiles_item sketch_SP 0))
     NewBodyFeatureOperation true 1 ;;
   parent_sketch <- sketchCircles_addByCenterRadius sketch_SP
     (Point3D 0 (_d self - 5) 0) 2 ;;
   circle_cut <- extrude (one_profile (profiles_item sketch_SP 2))
     CutFeatureOperation true (0.2 * _d self) ;;
   CircularPattern <- circular_pattern circle_cut const_axis_sp (H self) ;;
   host_ret tt)%host.

(** Handle base and Handle *)
Definition handle (self : FlowValve) : host unit :=
  (* Construction Plane at angle *)
  (const_plane_sp <- call is_plane
     (constructionPlanes_add
        (setByAngle xConstructionAxis (theta self + radians 90)
           xYConstructionPlane)) ;;
   (* Sketch circle extrude 1 *)
   sketch_sp <- call is_sketch
     (sketches_add (constructionPlane const_plane_sp)) ;;
   let center_box := Point3D (-1.218) 108.25 (-14) in
   circle_sp_o <- sketchCircles_addByCenterRadius sketch_sp center_box 2.5 ;;
   let pipe_sp_profile := profiles_item sketch_sp 0 in
   bodyOne <- extrude (one_profile pipe_sp_profile) JoinFeatureOperation
     true 2 ;;
   (* Sketch circle extrude 2 *)
   sketch_sp <- call is_sketch
     (sketches_add (constructionPlane const_plane_sp)) ;;
   let center_box := Point3D (-1.218) 108.25 (-14) in
   circle_sp_o <- sketchCircles_addByCenterRadius sketch_sp center_box 1 ;;
   let pipe_sp_profile := profiles_item sketch_sp 0 in
   bodyOne <- extrude (one_profile pipe_sp_profile) JoinFeatureOperation
     true 3.5 ;;
   (* Handle: sketch on zy-plane *)
   sketch_SP <- call is_sketch (sketches_add yZConstructionPlane) ;;
   let posArray := [0; 1; 2]%nat in
   let zArray := [-53.5; -50; -51.282; -46] in
   let yArray := [-100; -90.35; -87.512; -73] in
   handle_lines sketch_SP zArray yArray posArray ;;
   let posArrayOffset := [0; 1; 2]%nat in
   let zArrayOff := [-46.7808; -52.137; -50.851; -54.264] in
   let yArrayOff := [-72.806; -87.523; -90.37; -99.727] in
   handle_lines sketch_SP zArrayOff yArrayOff posArrayOffset ;;
   let arcStart := Point3D (-46) (-73) 0 in
   let arcCenter := Point3D (-46.3904) (-72.903) 0 in
   call_ (addByCenterStartSweep sketch_SP arcCenter arcStart (radians 180)) ;;
   let arcStart := Point3D (-53.5) (-100) 0 in
   let arcCenter := Point3D (-53.882) (-99.8635) 0 in
   call_ (addByCenterStartSweep sketch_SP arcCenter arcStart (radians (-180))) ;;
   (* Extrude *)
   let pipe_sp_profile := profiles_item sketch_sp 0 in
   Handle_ext <- extrude (one_profile pipe_sp_profile) NewBodyFeatureOperation
     true 2 ;;
   host_ret tt)%host.

(** [create_flow_valve]; [new_comp] tells whether [createNewComponent()]
    returned a component.  When it did not, the method means to show a
    message box and return; but [ui] is a local variable of the method
    (it is assigned further down, in the spool pieces of the main pipe),
    so reading it there raises [UnboundLocalError] and no host call is
    made. *)
Definition create_flow_valve (new_comp : bool) (self : FlowValve)
  : host (outcome unit) :=
  if new_comp then
    (call_ (set_name (D self) (degrees (theta self))) ;;
     carried <- sensor_pipe self ;;
     let '(pipe_sp_profile, const_axis_sp, sketch_sp) := carried in
     main_pipe self sketch_sp ;;
     ball_valve self pipe_sp_profile const_axis_sp ;;
     handle self ;;
     host_ret (Returned tt))%host
  else
    host_ret (Raised UnboundLocalError).

(** The host calls of one run of [create_flow_valve], in their order. *)
Definition construction (self : FlowValve) : list HostCall :=
  snd (create_flow_valve true self []).

(** *** Reading a construction *)

Definition pattern_quantities (calls : list HostCall) : list R :=
  flat_map (fun c =>
    match c with
    | circularPatternFeatures_add _ _ q _ _ => [q]
    | _ => []
    end) calls.

Definition circle_radii (calls : list HostCall) : list R :=
  flat_map (fun c =>
    match c with
    | addByCenterRadius _ _ r => [r]
    | _ => []
    end) calls.

(** The radii of the circles drawn in one sketch, in their order. *)
Definition radii_of_sketch (sketch : nat) (calls : list HostCall) : list R :=
  flat_map (fun c =>
    match c with
    | addByCenterRadius s _ r => if Nat.eqb s sketch then [r] else []
    | _ => []
    end) calls.

(** The sketches whose profiles a feature is made of. *)
Definition extruded_sketches (calls : list HostCall) : list nat :=
  flat_map (fun c =>
    match c with
    | extrudeFeatures_add (one_profile (profiles_item s _)) _ _ _ => [s]
    | extrudeFeatures_add (all_profiles s) _ _ _ => [s]
    | revolveFeatures_add (profiles_item s _) _ _ _ _ => [s]
    | _ => []
    end) calls.

(** The sketches that received a line or an arc. *)
Definition outline_sketches (calls : list HostCall) : list nat :=
  flat_map (fun c =>
    match c with
    | addByTwoPoints s _ _ => [s]
    | addByCenterStartSweep s _ _ _ => [s]
    | _ => []
    end) calls.

(** The circles drawn in one sketch, centre and radius, in their order. *)
Definition circles_of_sketch (sketch : nat) (calls : list HostCall)
  : list (Point * R) :=
  flat_map (fun c =>
    match c with
    | addByCenterRadius s p r => if Nat.eqb s sketch then [(p, r)] else []
    | _ => []
    end) calls.

(** The distances of the extrusions made of one profile, in their order. *)
Definition extrusions_of (sketch index : nat) (calls : list HostCall)
  : list R :=
  flat_map (fun c =>
    match c with
    | extrudeFeatures_add (one_profile (profiles_item s i)) _ _ d =>
        if (Nat.eqb s sketch && Nat.eqb i index)%bool then [d] else []
    | _ => []
    end) calls.

(** The host calls of one run of [FlowValveCommandExecuteHandler.notify]
    when the host gives a new component: those of [create_flow_valve], or
    the message box of the [except] branch. *)
Definition notify_execute_calls (inputs : list CommandInput)
  : list HostCall :=
  match notify_execute inputs with
  | Constructed flow_valve _ => construction flow_valve
  | Failed _ => [messageBox "Failed:"]
  end.

(** *** Reading a block of assignments *)

Definition assigned_H (a : assignment) : option R :=
  match a with assign_H v => Some v | _ => None end.
Definition assigned_RH (a : assignment) : option R :=
  match a with assign_RH v => Some v | _ => None end.
Definition assigned_L (a : assignment) : option R :=
  match a with assign_L v => Some v | _ => None end.
Definition assigned_theta (a : assignment) : option R :=
  match a with assign_theta v => Some v | _ => None end.
Definition assigned_D (a : assignment) : option R :=
  match a with assign_D v => Some v | _ => None end.

(** The value a property holds after a block of assignments that all
    returned: the last one assigned to it, or the one it had. *)
Fixpoint last_assigned (sel : assignment -> option R)
    (prog : list assignment) (before : R) : R :=
  match prog with
  | [] => before
  | a :: rest =>
      last_assigned sel rest
        (match sel a with Some v => v | None => before end)
  end.

(** What the execute handler may change in an input: the text of a text
    box. *)
Definition same_input_but_text (a b : CommandInput) : Prop :=
  match a with
  | ValueCommandInput _ _ => b = a
  | TextBoxCommandInput i _ => exists text, b = TextBoxCommandInput i text
  end.

(** What every object that reaches [create_flow_valve] satisfies (lemma
    [execute_inputs_spec]): the wall thickness and the sensor pipe diameter
    of the constructor, and the transducer distance of the current angle
    and diameter. *)
Definition ready (self : FlowValve) : Prop :=
  WT self = 4 /\
  _d self = 15 /\
  cos (pi / 2 - theta self) <> 0 /\
  P self = D self / cos (pi / 2 - theta self).

(** ** The arithmetic of [calculate_WT] on binary64 numbers *)

Module Binary64.

(** [self._D/2-(self.D/2-self.D/10)] *)
Definition calculate_WT (D : float) : float :=
  (D / 2 - (D / 2 - D / 10))%float.

(** [D / 10] *)
Definition tenth (D : float) : float := (D / 10)%float.

End Binary64.

(** ** Proof automation *)

(** Unfolds a script of host calls down to the list of its calls. *)
Ltac run_host :=
  cbv [construction create_flow_valve sensor_pipe main_pipe ball_valve handle
       handle_lines host_bind host_ret call call_
       sketchCircles_addByCenterRadius sketchLines_addByTwoPoints extrude
       circular_pattern centerSketchPoint circle_radius getitem nth Nat.add
       is_plane is_axis is_sketch is_line_of is_feature filter List.length
       app snd fst Nat.eqb andb
       pattern_quantities circle_radii radii_of_sketch circles_of_sketch
       extrusions_of extruded_sketches outline_sketches flat_map].

(** Unfolds the monad of methods down to pairs and matches. *)
Ltac run_method :=
  unfold bind, get, modify, lift, ret; cbn [fst snd].

(** Reads the fields of an updated record. *)
Ltac fields :=
  unfold with_H, with_RH, with_theta, with_D, with_L, with_WT, with_d, with_P;
  cbn [_H _RH _theta _D _L _WT _d _P].

(** * Numeric facts *)

(** The real [PI] lies between [pi + 1.22e-16] and [pi + 1.27e-16]. *)
Lemma pi_lt_PI : pi + 122 / 10 ^ 18 < PI.
Proof.
  destruct (PI_2_3_7_ineq 8) as [Hlo _].
  unfold sum_f_R0, tg_alt, PI_2_3_7_tg, Ratan_seq in Hlo.
  simpl in Hlo. unfold pi. simpl. lra.
Qed.

Lemma PI_lt_pi : PI < pi + 127 / 10 ^ 18.
Proof.
  destruct (PI_2_3_7_ineq 8) as [_ Hhi].
  unfold sum_f_R0, tg_alt, PI_2_3_7_tg, Ratan_seq in Hhi.
  simpl in Hhi. unfold pi. simpl. lra.
Qed.

Lemma pi_lower : 31415 / 10000 < pi.
Proof. unfold pi. lra. Qed.

Lemma pi_upper : pi < 31416 / 10000.
Proof. unfold pi. lra. Qed.

(** The angle of the default sensor pipe, seen from the other side:
    [pi/2 - radians(70)] is 20 degrees. *)
Lemma default_angle : pi / 2 - defaultTheta = pi / 9.
Proof. unfold defaultTheta, radians. lra. Qed.

Lemma cos_approx_2 (a : R) :
  cos_approx a 2 = 1 - a ^ 2 / 2 + a ^ 4 / 24.
Proof.
  unfold cos_approx, cos_term, sum_f_R0.
  change (fact (2 * 0)) with 1%nat.
  change (fact (2 * 1)) with 2%nat.
  change (fact (2 * 2)) with 24%nat.
  rewrite (INR_IZR_INZ 1), (INR_IZR_INZ 2), (INR_IZR_INZ 24).
  simpl. field.
Qed.

Lemma cos_approx_3 (a : R) :
  cos_approx a 3 = 1 - a ^ 2 / 2 + a ^ 4 / 24 - a ^ 6 / 720.
Proof.
  unfold cos_approx, cos_term, sum_f_R0.
  change (fact (2 * 0)) with 1%nat.
  change (fact (2 * 1)) with 2%nat.
  change (fact (2 * 2)) with 24%nat.
  change (fact (2 * 3)) with 720%nat.
  rewrite (INR_IZR_INZ 1), (INR_IZR_INZ 2), (INR_IZR_INZ 24),
    (INR_IZR_INZ 720).
  simpl. field.
Qed.

(** Monotonicity of a power on the non-negative reals, in the form the
    interval evaluation below uses. *)
Lemma pow_between (a x b : R) (n : nat) :
  0 <= a -> a <= x -> x <= b -> a ^ n <= x ^ n <= b ^ n.
Proof.
  intros Ha Hax Hxb. split; apply pow_incr; lra.
Qed.

(** [cos(pi/9)] to four decimals. *)
Lemma cos_PI9_bounds : 93963 / 100000 < cos (pi / 9) < 93973 / 100000.
Proof.
  pose proof pi_lower as Hlo. pose proof pi_upper as Hhi.
  set (x := pi / 9).
  assert (Hx : 31415 / 90000 <= x <= 31416 / 90000) by (unfold x; lra).
  destruct (pre_cos_bound x 0) as [_ Hup]; [lra | lra |].
  destruct (pre_cos_bound x 1) as [Hdn _]; [lra | lra |].
  change (2 * (0 + 1))%nat with 2%nat in Hup.
  change (2 * 1 + 1)%nat with 3%nat in Hdn.
  rewrite cos_approx_2 in Hup. rewrite cos_approx_3 in Hdn.
  destruct (pow_between (31415 / 90000) x (31416 / 90000) 2) as [L2 U2];
    [lra | lra | lra |].
  destruct (pow_between (31415 / 90000) x (31416 / 90000) 4) as [L4 U4];
    [lra | lra | lra |].
  destruct (pow_between (31415 / 90000) x (31416 / 90000) 6) as [L6 U6];
    [lra | lra | lra |].
  simpl in L2, U2, L4, U4, L6, U6.
  split; lra.
Qed.

Lemma cos_default_bounds :
  93963 / 100000 < cos (pi / 2 - defaultTheta) < 93973 / 100000.
Proof. rewrite default_angle. exact cos_PI9_bounds. Qed.

Lemma cos_default_neq0 : cos (pi / 2 - defaultTheta) <> 0.
Proof. pose proof cos_default_bounds. lra. Qed.

(** * What the methods compute *)

Lemma truediv_nonzero (a b : R) : b <> 0 -> truediv a b = Returned (a / b).
Proof.
  intros Hb. unfold truediv. destruct (Req_dec_T b 0); [contradiction | reflexivity].
Qed.

Lemma truediv_zero (a b : R) : b = 0 -> truediv a b = Raised ZeroDivisionError.
Proof.
  intros Hb. unfold truediv. destruct (Req_dec_T b 0); [reflexivity | contradiction].
Qed.

Lemma calculate_P_returns (self : FlowValve) :
  cos (pi / 2 - _theta self) <> 0 ->
  calculate_P self =
    (with_P (_D self / cos (pi / 2 - _theta self)) self,
     Returned (_D self / cos (pi / 2 - _theta self))).
Proof.
  intros Hc. unfold calculate_P. run_method.
  rewrite (truediv_nonzero _ _ Hc). reflexivity.
Qed.

Lemma calculate_P_raises (self : FlowValve) :
  cos (pi / 2 - _theta self) = 0 ->
  calculate_P self = (self, Raised ZeroDivisionError).
Proof.
  intros Hc. unfold calculate_P. run_method.
  rewrite (truediv_zero _ _ Hc). reflexivity.
Qed.

Lemma calculate_WT_returns (self : FlowValve) :
  calculate_WT self =
    (with_WT (_D self / 2 - (_D self / 2 - _D self / 10)) self,
     Returned (_D self / 2 - (_D self / 2 - _D self / 10))).
Proof. reflexivity. Qed.

(** The expression of [calculate_WT] is a tenth of the diameter. *)
Lemma calculate_WT_tenth (self : FlowValve) :
  WT (fst (calculate_WT self)) = D self / 10.
Proof. rewrite calculate_WT_returns. unfold WT, D. cbn. field. Qed.

Lemma theta_setter_returns (value : R) (self : FlowValve) :
  cos (pi / 2 - value) <> 0 ->
  theta_setter value self =
    (with_P (_D self / cos (pi / 2 - value)) (with_theta value self),
     Returned tt).
Proof.
  intros Hc. unfold theta_setter. run_method.
  rewrite calculate_P_returns by exact Hc. reflexivity.
Qed.

Lemma theta_setter_raises (value : R) (self : FlowValve) :
  cos (pi / 2 - value) = 0 ->
  theta_setter value self = (with_theta value self, Raised ZeroDivisionError).
Proof.
  intros Hc. unfold theta_setter. run_method.
  rewrite calculate_P_raises by exact Hc. reflexivity.
Qed.

Lemma D_setter_returns (value : R) (self : FlowValve) :
  cos (pi / 2 - _theta self) <> 0 ->
  D_setter value self =
    (with_P (value / cos (pi / 2 - _theta self)) (with_D value self),
     Returned tt).
Proof.
  intros Hc. unfold D_setter. run_method.
  rewrite calculate_P_returns by exact Hc. reflexivity.
Qed.

Lemma D_setter_raises (value : R) (self : FlowValve) :
  cos (pi / 2 - _theta self) = 0 ->
  D_setter value self = (with_D value self, Raised ZeroDivisionError).
Proof.
  intros Hc. unfold D_setter. run_method.
  rewrite calculate_P_raises by exact Hc. reflexivity.
Qed.

Lemma init_returns (b : FlowValve) : __init__ b = (default_valve, Returned tt).
Proof.
  unfold __init__. run_method.
  rewrite calculate_WT_returns. cbn [with_WT with_d _D _theta _H _RH _L _WT _d _P].
  rewrite calculate_P_returns by exact cos_default_neq0.
  reflexivity.
Qed.

(** [__init__] reads no attribute of the object it is given. *)
Lemma init_any_blank (b : FlowValve) : __init__ b = __init__ blank.
Proof. now rewrite !init_returns. Qed.

Lemma new_FlowValve_returns : new_FlowValve = Returned default_valve.
Proof. unfold new_FlowValve. now rewrite init_returns. Qed.

Lemma new_FlowValve_inv (self : FlowValve) :
  new_FlowValve = Returned self -> self = default_valve.
Proof. rewrite new_FlowValve_returns. congruence. Qed.

Lemma default_WT : WT default_valve = 4.
Proof. unfold WT, default_valve, defaultD. cbn. lra. Qed.

Lemma default_P_bounds : 42565 / 1000 < P default_valve < 4257 / 100.
Proof.
  pose proof cos_default_bounds as [Hlo Hhi].
  unfold P, default_valve, defaultD. cbn [_P].
  set (c := cos (pi / 2 - defaultTheta)) in *.
  assert (Hc : 0 < c) by lra.
  split.
  - apply (Rmult_lt_reg_r c); [exact Hc |].
    unfold Rdiv at 2. rewrite Rmult_assoc, Rinv_l by lra. lra.
  - apply (Rmult_lt_reg_r c); [exact Hc |].
    unfold Rdiv at 1. rewrite Rmult_assoc, Rinv_l by lra. lra.
Qed.

(** * Invariants of the object *)

Lemma P_current_default : P_current default_valve.
Proof. intros _. reflexivity. Qed.

Lemma P_current_theta_setter (value : R) (self : FlowValve) :
  P_current (fst (theta_setter value self)).
Proof.
  destruct (Req_dec_T (cos (pi / 2 - value)) 0) as [Hz | Hnz].
  - rewrite theta_setter_raises by exact Hz. intros Hc. now elim Hc.
  - rewrite theta_setter_returns by exact Hnz. intros _. reflexivity.
Qed.

Lemma P_current_D_setter (value : R) (self : FlowValve) :
  P_current (fst (D_setter value self)).
Proof.
  destruct (Req_dec_T (cos (pi / 2 - _theta self)) 0) as [Hz | Hnz].
  - rewrite D_setter_raises by exact Hz. intros Hc. now elim Hc.
  - rewrite D_setter_returns by exact Hnz. intros _. reflexivity.
Qed.

Lemma P_current_assign (a : assignment) (self : FlowValve) :
  P_current self -> P_current (fst (assign a self)).
Proof.
  intros Hinv. destruct a as [v | v | v | v | v]; cbn [assign].
  - exact Hinv.
  - exact Hinv.
  - exact Hinv.
  - apply P_current_theta_setter.
  - apply P_current_D_setter.
Qed.

Lemma P_current_exec (prog : list assignment) :
  forall self, P_current self -> P_current (fst (exec prog self)).
Proof.
  induction prog as [| a rest IH]; intros self Hinv; cbn [exec].
  - exact Hinv.
  - unfold bind.
    pose proof (P_current_assign a self Hinv) as Ha.
    destruct (assign a self) as [self' [[] | e]]; cbn [fst] in *.
    + apply IH, Ha.
    + exact Ha.
Qed.

Lemma P_current_reachable (self : FlowValve) :
  reachable self -> P_current self.
Proof.
  induction 1 as [self Hnew | self a _ IH].
  - apply new_FlowValve_inv in Hnew. subst self. apply P_current_default.
  - apply P_current_assign, IH.
Qed.

(** No setter writes [_WT]. *)
Lemma WT_assign (a : assignment) (self : FlowValve) :
  WT (fst (assign a self)) = WT self.
Proof.
  destruct a as [v | v | v | v | v]; cbn [assign]; try reflexivity.
  - destruct (Req_dec_T (cos (pi / 2 - v)) 0) as [Hz | Hnz].
    + now rewrite theta_setter_raises.
    + now rewrite theta_setter_returns.
  - destruct (Req_dec_T (cos (pi / 2 - _theta self)) 0) as [Hz | Hnz].
    + now rewrite D_setter_raises.
    + now rewrite D_setter_returns.
Qed.

(** Hence the wall thickness of every object is the one of the default
    diameter. *)
Lemma WT_reachable (self : FlowValve) : reachable self -> WT self = 4.
Proof.
  induction 1 as [self Hnew | self a _ IH].
  - apply new_FlowValve_inv in Hnew. subst self. exact default_WT.
  - now rewrite WT_assign.
Qed.

(** The divisor of [calculate_P] is the sine of the angle, moved by half
    the distance from [pi] to the real [PI]. *)
Lemma cos_as_sin (t : R) : cos (pi / 2 - t) = sin (t + (PI - pi) / 2).
Proof.
  rewrite <- cos_shift. f_equal. lra.
Qed.

(** It is positive for every angle from 0 to [pi], both included. *)
Lemma cos_shift_pos (t : R) : 0 <= t <= pi -> 0 < cos (pi / 2 - t).
Proof.
  intros [Ht0 Ht1]. rewrite cos_as_sin.
  pose proof pi_lt_PI as Hlo. simpl in Hlo.
  apply sin_gt_0; lra.
Qed.

Lemma sin_approx_1 (a : R) : sin_approx a 1 = a - a ^ 3 / 6.
Proof.
  unfold sin_approx, sin_term, sum_f_R0.
  change (fact (2 * 0 + 1)) with 1%nat.
  change (fact (2 * 1 + 1)) with 6%nat.
  rewrite (INR_IZR_INZ 1), (INR_IZR_INZ 6).
  simpl. field.
Qed.

(** At the angle 0 the divisor is about [6.1e-17]: near zero, not zero. *)
Lemma cos_at_0_bounds :
  60 / 10 ^ 18 < cos (pi / 2 - 0) < 64 / 10 ^ 18.
Proof.
  rewrite cos_as_sin.
  pose proof pi_lt_PI as Hlo. pose proof PI_lt_pi as Hhi.
  simpl in Hlo, Hhi.
  set (e := 0 + (PI - pi) / 2).
  assert (He : 61 / 10 ^ 18 <= e <= 635 / 10 ^ 19)
    by (unfold e; simpl; lra).
  simpl in He. split.
  - destruct (sin_bound e 0) as [Hdn _]; [lra | pose proof PI2_1; lra |].
    change (2 * 0 + 1)%nat with 1%nat in Hdn. rewrite sin_approx_1 in Hdn.
    destruct (pow_between 0 e (1 / 10 ^ 16) 3) as [_ U3];
      [lra | lra | simpl; lra |].
    simpl in U3 |- *. lra.
  - pose proof (sin_lt_x e ltac:(lra)) as Hlt. simpl. lra.
Qed.

Lemma cos_at_0_neq0 : cos (pi / 2 - 0) <> 0.
Proof. pose proof cos_at_0_bounds as [Hlo _]. simpl in Hlo. lra. Qed.

(** The same at the angle [pi], that is [radians(180)]. *)
Lemma cos_at_pi : cos (pi / 2 - pi) = cos (pi / 2 - 0).
Proof.
  replace (pi / 2 - pi) with (- (pi / 2 - 0)) by lra. apply cos_neg.
Qed.

Lemma cos_at_pi_neq0 : cos (pi / 2 - radians 180) <> 0.
Proof.
  replace (radians 180) with pi by (unfold radians; lra).
  rewrite cos_at_pi. exact cos_at_0_neq0.
Qed.

(** * The execute handler on the dialog *)

Lemma bind_returns {A B} (m : method A) (k : A -> method B)
    (self self' : FlowValve) (a : A) :
  m self = (self', Returned a) -> bind m k self = k a self'.
Proof. intros Hm. unfold bind. now rewrite Hm. Qed.

Lemma bind_raises {A B} (m : method A) (k : A -> method B)
    (self self' : FlowValve) (e : PyExc) :
  m self = (self', Raised e) -> bind m k self = (self', Raised e).
Proof. intros Hm. unfold bind. now rewrite Hm. Qed.

(** One turn of the loop on a value input whose setter returns. *)
Lemma execute_value_input (i : string) (e : R) (setter : R -> method unit)
    (self self' : FlowValve) :
  execute_input (ValueCommandInput i e) =
    on_expression (ValueCommandInput i e) setter ->
  setter e self = (self', Returned tt) ->
  execute_input (ValueCommandInput i e) self =
    (self', Returned (ValueCommandInput i e)).
Proof.
  intros Hid Hset. rewrite Hid. cbn [on_expression].
  now rewrite (bind_returns _ _ _ _ _ Hset).
Qed.

Lemma execute_cons (input input' : CommandInput)
    (rest rest' : list CommandInput) (self self' self'' : FlowValve) :
  execute_input input self = (self', Returned input') ->
  execute_inputs rest self' = (self'', Returned rest') ->
  execute_inputs (input :: rest) self = (self'', Returned (input' :: rest')).
Proof.
  intros Hi Hr. cbn [execute_inputs].
  rewrite (bind_returns _ _ _ _ _ Hi), (bind_returns _ _ _ _ _ Hr).
  reflexivity.
Qed.

Lemma execute_dialog_inputs (th d l rh h : R) (p wt : PyNumber) :
  cos (pi / 2 - th) <> 0 ->
  execute_inputs (dialog th d l rh h p wt) default_valve =
    (mkFlowValve h rh th d l (WT default_valve) 15 (d / cos (pi / 2 - th)),
     Returned
       (dialog th d l rh h
          (round (d / cos (pi / 2 - th)) 2)
          (round (WT default_valve) 2))).
Proof.
  intros Hc. unfold dialog.
  eapply execute_cons.
  { apply (execute_value_input _ _ theta_setter); [reflexivity |].
    apply theta_setter_returns, Hc. }
  eapply execute_cons.
  { apply (execute_value_input _ _ D_setter); [reflexivity |].
    apply D_setter_returns, Hc. }
  eapply execute_cons.
  { apply (execute_value_input _ _ L_setter); reflexivity. }
  eapply execute_cons.
  { apply (execute_value_input _ _ RH_setter); reflexivity. }
  eapply execute_cons.
  { apply (execute_value_input _ _ H_setter); reflexivity. }
  eapply execute_cons.
  { reflexivity. }
  eapply execute_cons.
  { reflexivity. }
  reflexivity.
Qed.

Lemma execute_dialog (th d l rh h : R) (p wt : PyNumber) :
  cos (pi / 2 - th) <> 0 ->
  notify_execute (dialog th d l rh h p wt) =
    Constructed
      (mkFlowValve h rh th d l 4 15 (d / cos (pi / 2 - th)))
      (dialog th d l rh h
         (round (d / cos (pi / 2 - th)) 2)
         (round 4 2)).
Proof.
  intros Hc. unfold notify_execute. rewrite new_FlowValve_returns.
  rewrite (execute_dialog_inputs th d l rh h p wt Hc).
  now rewrite default_WT.
Qed.


(** * Rounding *)


Lemma round_half_even_upper_half (x : R) (n : Z) :
  IZR n + / 2 < x < IZR n + 1 -> round_half_even x = (n + 1)%Z.
Proof.
  intros [Hlo Hhi]. unfold round_half_even.
  rewrite (Zfloor_eq n x) by lra.
  destruct (Rlt_dec (x - IZR n) (/ 2)) as [Hlt | _]; [lra |].
  destruct (Rlt_dec (/ 2) (x - IZR n)) as [_ | Hge]; [reflexivity | lra].
Qed.

Lemma round_default_P : round (P default_valve) 2 = PyFloat (4257 / 100).
Proof.
  pose proof default_P_bounds as [Hlo Hhi].
  unfold round. f_equal.
  replace (10 ^ 2) with 100 by (simpl; lra).
  rewrite (round_half_even_upper_half _ 4256) by lra.
  reflexivity.
Qed.



(** * The scenario of the three writes *)

Lemma radians_90 : radians 90 = pi / 2.
Proof. unfold radians. field. Qed.

Lemma cos_right_angle : cos (pi / 2 - pi / 2) = 1.
Proof. rewrite Rminus_diag. exact cos_0. Qed.

Lemma exec_cons_returns (a : assignment) (rest : list assignment)
    (self self' : FlowValve) :
  assign a self = (self', Returned tt) ->
  exec (a :: rest) self = exec rest self'.
Proof. intros Ha. cbn [exec]. now rewrite (bind_returns _ _ _ _ _ Ha). Qed.

(** [D = 40], then [theta = radians(70)], on a new object. *)
Lemma exec_40_70 :
  exec [assign_D 40; assign_theta (radians 70)] default_valve =
    (default_valve, Returned tt).
Proof.
  rewrite (exec_cons_returns _ _ _ default_valve).
  2:{ cbn [assign]. rewrite D_setter_returns by exact cos_default_neq0.
      reflexivity. }
  rewrite (exec_cons_returns _ _ _ default_valve).
  2:{ cbn [assign]. rewrite theta_setter_returns by exact cos_default_neq0.
      reflexivity. }
  reflexivity.
Qed.

(** Then [theta = radians(90)]. *)
Lemma theta_setter_90 :
  theta_setter (radians 90) default_valve =
    (with_P 40 (with_theta (pi / 2) default_valve), Returned tt).
Proof.
  rewrite radians_90.
  rewrite theta_setter_returns by (rewrite cos_right_angle; lra).
  rewrite cos_right_angle.
  replace (_D default_valve / 1) with 40
    by (unfold default_valve, defaultD; cbn [_D]; lra).
  reflexivity.
Qed.

Lemma lt_div (a x c : R) : 0 < c -> a * c < x -> a < x / c.
Proof.
  intros Hc Hax. apply (Rmult_lt_reg_r c); [exact Hc |].
  unfold Rdiv. rewrite Rmult_assoc, Rinv_l by lra. lra.
Qed.

(** A number of [2^1000] or more, divided by a positive one below
    [2^-24], is above [2^1024], the bound of the binary64 numbers. *)
Lemma large_over_small (x c : R) :
  2 ^ 1000 <= x -> 0 < c < 1 / 2 ^ 24 -> 2 ^ 1024 < x / c.
Proof.
  intros Hx [Hc0 Hc1].
  change 1024%nat with (1000 + 24)%nat. rewrite pow_add.
  set (b := 2 ^ 1000) in *. set (k := 2 ^ 24) in *.
  assert (Hb : 0 < b) by (apply pow_lt; lra).
  assert (Hk : 0 < k) by (apply pow_lt; lra).
  assert (Hinv : k < / c).
  { replace k with (/ (1 / k)) by (field; lra).
    apply Rinv_0_lt_contravar; assumption. }
  unfold Rdiv. nra.
Qed.

(** A block of assignments whose angles all have a nonzero
    [cos(pi/2 - angle)] returns normally, and leaves in each property the
    last value assigned to it, with the transducer distance of the last
    diameter and angle. *)
Lemma exec_returns_last_assigned (prog : list assignment) :
  forall s,
    cos (pi / 2 - _theta s) <> 0 ->
    _P s = _D s / cos (pi / 2 - _theta s) ->
    (forall v, In (assign_theta v) prog -> cos (pi / 2 - v) <> 0) ->
    cos (pi / 2 - last_assigned assigned_theta prog (_theta s)) <> 0 /\
    exec prog s =
      (mkFlowValve
         (last_assigned assigned_H prog (_H s))
         (last_assigned assigned_RH prog (_RH s))
         (last_assigned assigned_theta prog (_theta s))
         (last_assigned assigned_D prog (_D s))
         (last_assigned assigned_L prog (_L s))
         (_WT s) (_d s)
         (last_assigned assigned_D prog (_D s) /
          cos (pi / 2 - last_assigned assigned_theta prog (_theta s))),
       Returned tt).
Proof.
  induction prog as [| a rest IH]; intros s Hc HP Hall.
  - cbn [exec last_assigned]. split; [exact Hc |].
    unfold ret. f_equal.
    destruct s; cbn [_H _RH _theta _D _L _WT _d _P] in *. now subst.
  - assert (Hrest : forall v, In (assign_theta v) rest ->
                      cos (pi / 2 - v) <> 0)
      by (intros v Hin; apply Hall; now right).
    cbn [last_assigned].
    destruct a as [v | v | v | v | v];
      cbn [assigned_H assigned_RH assigned_L assigned_theta assigned_D].
    + rewrite (exec_cons_returns _ _ _ (with_H v s)) by reflexivity.
      exact (IH (with_H v s) Hc HP Hrest).
    + rewrite (exec_cons_returns _ _ _ (with_RH v s)) by reflexivity.
      exact (IH (with_RH v s) Hc HP Hrest).
    + rewrite (exec_cons_returns _ _ _ (with_L v s)) by reflexivity.
      exact (IH (with_L v s) Hc HP Hrest).
    + assert (Hv : cos (pi / 2 - v) <> 0) by (apply Hall; now left).
      rewrite (exec_cons_returns _ _ _
                 (with_P (_D s / cos (pi / 2 - v)) (with_theta v s)))
        by (cbn [assign]; now rewrite theta_setter_returns).
      apply (IH (with_P (_D s / cos (pi / 2 - v)) (with_theta v s)));
        [exact Hv | reflexivity | exact Hrest].
    + rewrite (exec_cons_returns _ _ _
                 (with_P (v / cos (pi / 2 - _theta s)) (with_D v s)))
        by (cbn [assign]; now rewrite D_setter_returns).
      apply (IH (with_P (v / cos (pi / 2 - _theta s)) (with_D v s)));
        [exact Hc | reflexivity | exact Hrest].
Qed.

(** * The claims *)

(** C1: on every object a program can hold whose diameter [D] is positive
    and whose angle keeps [|cos(pi/2 - theta)|] above [1e-6], reading [P]
    returns exactly [D / cos(pi/2 - theta)]; that value is strictly positive
    when moreover [0 < theta < pi]. *)
Theorem transducer_distance_formula (self : FlowValve) :
  reachable self ->
  0 < D self ->
  Rabs (cos (pi / 2 - theta self)) > 1 / 1000000 ->
  P self = D self / cos (pi / 2 - theta self) /\
  (0 < theta self < pi -> 0 < P self).
Proof.
  intros Hreach HD Hcos.
  assert (Hnz : cos (pi / 2 - theta self) <> 0).
  { intros Hz. rewrite Hz, Rabs_R0 in Hcos. lra. }
  pose proof (P_current_reachable self Hreach Hnz) as HP.
  split; [exact HP |].
  intros Hth. rewrite HP.
  apply Rdiv_lt_0_compat; [exact HD | apply cos_shift_pos; lra].
Qed.

Lemma transducer_distance_formula_witness :
  reachable default_valve /\
  0 < D default_valve /\
  Rabs (cos (pi / 2 - theta default_valve)) > 1 / 1000000 /\
  P default_valve = D default_valve / cos (pi / 2 - theta default_valve) /\
  (0 < theta default_valve < pi -> 0 < P default_valve).
Proof.
  assert (Hr : reachable default_valve)
    by (apply reachable_new, new_FlowValve_returns).
  assert (HD : 0 < D default_valve)
    by (unfold D, default_valve, defaultD; cbn [_D]; lra).
  assert (Hc : Rabs (cos (pi / 2 - theta default_valve)) > 1 / 1000000).
  { unfold theta, default_valve; cbn [_theta].
    pose proof cos_default_bounds as [Hlo _].
    rewrite Rabs_pos_eq by lra. lra. }
  split; [exact Hr |]. split; [exact HD |]. split; [exact Hc |].
  exact (transducer_distance_formula default_valve Hr HD Hc).
Defined.

(** C2, at the failing input: on a new object, after the assignment
    [D = 50], reading [WT] returns 4, the tenth of the default diameter,
    while a tenth of the current diameter is 5. *)
Theorem wall_thickness_after_D_50 :
  exists self,
    new_FlowValve = Returned self /\
    snd (D_setter 50 self) = Returned tt /\
    D (fst (D_setter 50 self)) = 50 /\
    WT (fst (D_setter 50 self)) = 4 /\
    D (fst (D_setter 50 self)) / 10 = 5.
Proof.
  exists default_valve. split; [exact new_FlowValve_returns |].
  rewrite D_setter_returns by exact cos_default_neq0.
  cbn [fst snd]. unfold D, WT. fields.
  repeat split; try reflexivity.
  - unfold default_valve, defaultD; cbn [_WT]. lra.
  - lra.
Qed.

(** C3, the defect: the [D] setter stores the diameter and leaves the wall
    thickness as it was; on any object a program can hold the wall thickness
    therefore stays 4, whatever diameter is assigned. *)
Theorem D_setter_keeps_wall_thickness (self : FlowValve) (v : R) :
  D (fst (D_setter v self)) = v /\
  WT (fst (D_setter v self)) = WT self /\
  (reachable self -> WT (fst (D_setter v self)) = 4).
Proof.
  assert (HWT : WT (fst (D_setter v self)) = WT self)
    by exact (WT_assign (assign_D v) self).
  split; [| split].
  - destruct (Req_dec_T (cos (pi / 2 - _theta self)) 0) as [Hz | Hnz].
    + now rewrite D_setter_raises.
    + now rewrite D_setter_returns.
  - exact HWT.
  - intros Hr. rewrite HWT. now apply WT_reachable.
Qed.

(** C4, as amended: an angle whose [cos(pi/2 - angle)] is near zero signals
    no error, since the [theta] setter has no guard.  For every value whose
    [cos(pi/2 - value)] is not zero it returns normally, having stored the
    value and [P = D / cos(pi/2 - value)].  At [pi/2] that cosine is 1 and
    [P] becomes [D].  At 0 the cosine is positive and below [1e-6], and the
    setter returns all the same; there, with a diameter of [2^1000] or
    more, [P] is above [2^1024], beyond every binary64 number: the value
    stored is [Inf]. *)
Theorem theta_setter_without_guard (self : FlowValve) (v : R) :
  cos (pi / 2 - v) <> 0 ->
  snd (theta_setter v self) = Returned tt /\
  theta (fst (theta_setter v self)) = v /\
  P (fst (theta_setter v self)) = D self / cos (pi / 2 - v) /\
  (v = pi / 2 -> P (fst (theta_setter v self)) = D self) /\
  (v = 0 ->
   0 < cos (pi / 2 - v) < 1 / 1000000 /\
   (2 ^ 1000 <= D self -> 2 ^ 1024 < P (fst (theta_setter v self)))).
Proof.
  intros Hc. rewrite theta_setter_returns by exact Hc.
  cbn [fst snd]. unfold theta, P, D. fields.
  split; [reflexivity |]. split; [reflexivity |]. split; [reflexivity |].
  split.
  - intros ->. rewrite cos_right_angle. field.
  - intros ->. pose proof cos_at_0_bounds as [Hlo Hhi]. simpl in Hlo, Hhi.
    split; [lra |].
    intros HD. apply large_over_small; [exact HD | lra].
Qed.

Lemma theta_setter_without_guard_witness :
  cos (pi / 2 - 0) <> 0 /\
  snd (theta_setter 0 default_valve) = Returned tt /\
  theta (fst (theta_setter 0 default_valve)) = 0 /\
  P (fst (theta_setter 0 default_valve)) =
    D default_valve / cos (pi / 2 - 0) /\
  (0 = pi / 2 -> P (fst (theta_setter 0 default_valve)) = D default_valve) /\
  (0 = 0 ->
   0 < cos (pi / 2 - 0) < 1 / 1000000 /\
   (2 ^ 1000 <= D default_valve ->
    2 ^ 1024 < P (fst (theta_setter 0 default_valve)))).
Proof.
  split; [exact cos_at_0_neq0 |].
  exact (theta_setter_without_guard default_valve 0 cos_at_0_neq0).
Defined.

(** C4, the counterexample: on a new object the assignment [theta = 0],
    whose [cos(pi/2 - theta)] is within [1e-6] of zero, raises nothing and
    leaves [P] above [6e17]; the assignment [theta = pi/2] raises nothing
    and leaves [P = 40]; and after [D = 2^1000] the assignment [theta = 0]
    leaves a [P] above [2^1024], which a binary64 number holds as [Inf]. *)
Lemma degenerate_angle_is_accepted :
  exists self,
    new_FlowValve = Returned self /\
    Rabs (cos (pi / 2 - 0)) < 1 / 1000000 /\
    snd (theta_setter 0 self) = Returned tt /\
    6 * 10 ^ 17 < P (fst (theta_setter 0 self)) /\
    snd (theta_setter (pi / 2) self) = Returned tt /\
    P (fst (theta_setter (pi / 2) self)) = 40 /\
    exists s,
      exec [assign_D (2 ^ 1000); assign_theta 0] self = (s, Returned tt) /\
      2 ^ 1024 < P s.
Proof.
  exists default_valve. split; [exact new_FlowValve_returns |].
  pose proof cos_at_0_bounds as [Hlo Hhi]. simpl in Hlo, Hhi.
  split; [rewrite Rabs_pos_eq by lra; lra |].
  rewrite (theta_setter_returns 0) by exact cos_at_0_neq0.
  cbn [fst snd]. split; [reflexivity |].
  split.
  { unfold P. fields. unfold default_valve, defaultD. cbn [_D].
    apply lt_div; [lra | simpl; lra]. }
  rewrite <- radians_90, theta_setter_90. cbn [fst snd].
  split; [reflexivity |]. split; [reflexivity |].
  eexists. split.
  - rewrite (exec_cons_returns _ _ _
               (with_P (2 ^ 1000 / cos (pi / 2 - defaultTheta))
                  (with_D (2 ^ 1000) default_valve))).
    2:{ cbn [assign]. rewrite D_setter_returns by exact cos_default_neq0.
        reflexivity. }
    rewrite (exec_cons_returns _ _ _
               (with_P (2 ^ 1000 / cos (pi / 2 - 0))
                  (with_theta 0
                     (with_P (2 ^ 1000 / cos (pi / 2 - defaultTheta))
                        (with_D (2 ^ 1000) default_valve))))).
    2:{ cbn [assign]. rewrite theta_setter_returns by exact cos_at_0_neq0.
        reflexivity. }
    reflexivity.
  - unfold P. fields. apply large_over_small; [apply Rle_refl | lra].
Qed.

(** C5, as amended: in the scenario [D = 40], [theta = radians(70)],
    [theta = radians(90)] on a new object, all three assignments return
    normally; the third stores the right angle and recomputes [P] to 40,
    while after the second [P] was [40 / cos(pi/2 - radians(70))], which is
    above 42.56. *)
Theorem scenario_40_70_90 :
  exists self,
    new_FlowValve = Returned self /\
    exec [assign_D 40; assign_theta (radians 70); assign_theta (radians 90)]
      self =
      (mkFlowValve 6 3 (pi / 2) 40 100 4 15 40, Returned tt) /\
    P (fst (exec [assign_D 40; assign_theta (radians 70)] self)) =
      40 / cos (pi / 2 - radians 70) /\
    4256 / 100 <
      P (fst (exec [assign_D 40; assign_theta (radians 70)] self)).
Proof.
  exists default_valve. split; [exact new_FlowValve_returns |].
  split; [| split].
  - rewrite (exec_cons_returns _ _ _ default_valve).
    2:{ cbn [assign]. rewrite D_setter_returns by exact cos_default_neq0.
        reflexivity. }
    rewrite (exec_cons_returns _ _ _ default_valve).
    2:{ cbn [assign]. rewrite theta_setter_returns by exact cos_default_neq0.
        reflexivity. }
    rewrite (exec_cons_returns _ _ _
               (with_P 40 (with_theta (pi / 2) default_valve))).
    2:{ cbn [assign]. exact theta_setter_90. }
    cbn [exec]. unfold ret. f_equal.
    unfold default_valve. fields.
    f_equal. unfold defaultD. lra.
  - rewrite exec_40_70. reflexivity.
  - rewrite exec_40_70. cbn [fst].
    pose proof default_P_bounds. lra.
Qed.

(** C5, the counterexample: the third assignment of the scenario is not
    rejected, and it changes the transducer distance. *)
Lemma right_angle_write_changes_P :
  exists self,
    new_FlowValve = Returned self /\
    snd (theta_setter (radians 90)
           (fst (exec [assign_D 40; assign_theta (radians 70)] self))) =
      Returned tt /\
    P (fst (theta_setter (radians 90)
              (fst (exec [assign_D 40; assign_theta (radians 70)] self)))) <>
      P (fst (exec [assign_D 40; assign_theta (radians 70)] self)).
Proof.
  exists default_valve. split; [exact new_FlowValve_returns |].
  rewrite exec_40_70. cbn [fst]. rewrite theta_setter_90. cbn [fst snd].
  split; [reflexivity |].
  pose proof default_P_bounds as [Hlo _].
  unfold P at 1. fields. lra.
Qed.

(** C6, as amended: the setters do not validate dimensions.  On an object
    whose [cos(pi/2 - theta)] is not zero the [D] setter returns normally
    for every value, zero and negative ones included, having stored it and
    [P = value / cos(pi/2 - theta)]; the [H] setter returns normally for
    every value, having stored it; and the execute handler, on a dialog
    whose angle has a nonzero [cos(pi/2 - theta)], reaches
    [create_flow_valve] with whatever diameter and hole count the dialog
    holds, the hole count being the quantity of the bolt-hole patterns. *)
Theorem dimensions_are_not_validated
    (self : FlowValve) (v th d l rh h : R) (p wt : PyNumber) :
  cos (pi / 2 - theta self) <> 0 ->
  cos (pi / 2 - th) <> 0 ->
  D_setter v self =
    (with_P (v / cos (pi / 2 - theta self)) (with_D v self), Returned tt) /\
  H_setter v self = (with_H v self, Returned tt) /\
  exists flow_valve inputs,
    notify_execute (dialog th d l rh h p wt) = Constructed flow_valve inputs /\
    D flow_valve = d /\
    H flow_valve = h /\
    pattern_quantity flow_valve = h.
Proof.
  intros Hself Hth. split; [| split].
  - apply D_setter_returns, Hself.
  - reflexivity.
  - eexists. eexists. split.
    + apply execute_dialog, Hth.
    + repeat split.
Qed.

Lemma dimensions_are_not_validated_witness :
  cos (pi / 2 - theta default_valve) <> 0 /\
  cos (pi / 2 - defaultTheta) <> 0 /\
  D_setter (-1) default_valve =
    (with_P (-1 / cos (pi / 2 - theta default_valve))
       (with_D (-1) default_valve), Returned tt) /\
  H_setter (-1) default_valve = (with_H (-1) default_valve, Returned tt) /\
  exists flow_valve inputs,
    notify_execute
      (dialog defaultTheta (-40) defaultLength defaultRH 0
         (PyFloat 0) (PyInt 0)) =
      Constructed flow_valve inputs /\
    D flow_valve = -40 /\
    H flow_valve = 0 /\
    pattern_quantity flow_valve = 0.
Proof.
  split; [exact cos_default_neq0 |]. split; [exact cos_default_neq0 |].
  exact (dimensions_are_not_validated default_valve (-1) defaultTheta (-40)
           defaultLength defaultRH 0 (PyFloat 0) (PyInt 0)
           cos_default_neq0 cos_default_neq0).
Defined.

(** C6, the counterexample: on a new object the assignments [D = 0] and
    [D = -1] raise nothing; and a dialog left at its defaults but for
    [H = 0] makes the execute handler call [create_flow_valve], with 0 as
    the quantity of the bolt-hole patterns. *)
Lemma zero_and_negative_are_accepted :
  exists self,
    new_FlowValve = Returned self /\
    snd (D_setter 0 self) = Returned tt /\
    D (fst (D_setter 0 self)) = 0 /\
    snd (D_setter (-1) self) = Returned tt /\
    D (fst (D_setter (-1) self)) = -1 /\
    snd (H_setter 0 self) = Returned tt /\
    exists flow_valve inputs,
      notify_execute
        (dialog defaultTheta defaultD defaultLength defaultRH 0
           (round (P self) 2) (round0 (WT self))) =
        Constructed flow_valve inputs /\
      pattern_quantity flow_valve = 0.
Proof.
  exists default_valve. split; [exact new_FlowValve_returns |].
  rewrite !D_setter_returns by exact cos_default_neq0.
  cbn [fst snd]. repeat (split; [reflexivity |]).
  eexists. eexists. split.
  - apply execute_dialog, cos_default_neq0.
  - reflexivity.
Qed.

(** C7, as amended: a new object, built from the defaults (6 holes of
    radius 3, 70 degrees, diameter 40, length 100), has
    [P = 40 / cos(pi/2 - radians(70))], which rounds to 42.57 at two
    decimals, and [WT = 4]. *)
Theorem default_valve_readback :
  exists self,
    new_FlowValve = Returned self /\
    (H self = 6 /\ RH self = 3 /\ theta self = radians 70 /\
     D self = 40 /\ L self = 100) /\
    P self = 40 / cos (pi / 2 - radians 70) /\
    round (P self) 2 = PyFloat (4257 / 100) /\
    WT self = 4.
Proof.
  exists default_valve. split; [exact new_FlowValve_returns |].
  split; [repeat split |].
  split; [reflexivity |].
  split; [exact round_default_P | exact default_WT].
Qed.

(** C7, the counterexample: the transducer distance of a new object does
    not round to 42.56. *)
Lemma default_P_does_not_round_to_42_56 :
  exists self,
    new_FlowValve = Returned self /\
    round (P self) 2 <> PyFloat (4256 / 100).
Proof.
  exists default_valve. split; [exact new_FlowValve_returns |].
  rewrite round_default_P. intros Heq.
  injection Heq as Heq. lra.
Qed.



(** C9: a sequence of assignments to a new object, each of whose angles has
    a nonzero [cos(pi/2 - angle)], returns normally, and the object it
    leaves holds the last angle and the last diameter assigned (or the
    defaults) and, as its transducer distance, that diameter divided by
    [cos(pi/2 - angle)] for that angle: both setters recompute [P]. *)
Theorem P_is_current_after_assignments
    (prog : list assignment) (self0 : FlowValve) :
  new_FlowValve = Returned self0 ->
  (forall v, In (assign_theta v) prog -> cos (pi / 2 - v) <> 0) ->
  exists s,
    exec prog self0 = (s, Returned tt) /\
    theta s = last_assigned assigned_theta prog (radians 70) /\
    D s = last_assigned assigned_D prog 40 /\
    P s = D s / cos (pi / 2 - theta s).
Proof.
  intros Hnew Hall. apply new_FlowValve_inv in Hnew. subst self0.
  destruct (exec_returns_last_assigned prog default_valve
              cos_default_neq0 eq_refl Hall) as [_ Hex].
  eexists. split; [exact Hex |]. now repeat split.
Qed.

Lemma P_is_current_after_assignments_witness :
  new_FlowValve = Returned default_valve /\
  (forall v, In (assign_theta v) [assign_D 50; assign_theta 0; assign_D 60] ->
             cos (pi / 2 - v) <> 0) /\
  exists s,
    exec [assign_D 50; assign_theta 0; assign_D 60] default_valve =
      (s, Returned tt) /\
    theta s =
      last_assigned assigned_theta
        [assign_D 50; assign_theta 0; assign_D 60] (radians 70) /\
    D s =
      last_assigned assigned_D [assign_D 50; assign_theta 0; assign_D 60] 40 /\
    P s = D s / cos (pi / 2 - theta s).
Proof.
  assert (Hall : forall v,
             In (assign_theta v) [assign_D 50; assign_theta 0; assign_D 60] ->
             cos (pi / 2 - v) <> 0).
  { intros v [Hin | [Hin | [Hin | []]]]; try discriminate Hin.
    injection Hin as <-. exact cos_at_0_neq0. }
  split; [exact new_FlowValve_returns |]. split; [exact Hall |].
  exact (P_is_current_after_assignments
           [assign_D 50; assign_theta 0; assign_D 60] default_valve
           new_FlowValve_returns Hall).
Defined.

(** C10: for each of the five input properties, assigning a value and then
    reading the property returns that value: the setters store it as given.
    The three setters that recompute nothing also always return normally. *)
Theorem setters_store_the_value (self : FlowValve) (v : R) :
  (H (fst (H_setter v self)) = v /\ snd (H_setter v self) = Returned tt) /\
  (RH (fst (RH_setter v self)) = v /\ snd (RH_setter v self) = Returned tt) /\
  (L (fst (L_setter v self)) = v /\ snd (L_setter v self) = Returned tt) /\
  theta (fst (theta_setter v self)) = v /\
  D (fst (D_setter v self)) = v.
Proof.
  repeat split.
  - destruct (Req_dec_T (cos (pi / 2 - v)) 0) as [Hz | Hnz].
    + now rewrite theta_setter_raises.
    + now rewrite theta_setter_returns.
  - destruct (Req_dec_T (cos (pi / 2 - _theta self)) 0) as [Hz | Hnz].
    + now rewrite D_setter_raises.
    + now rewrite D_setter_returns.
Qed.

(** * The wall thickness on binary64 numbers

    The reals hide the rounding of [float]; the expression of
    [calculate_WT] has only [/] and [-], so it can be replayed exactly. *)

(** The default diameter gives exactly 4.0, and 50.0 would give 5.0. *)
Lemma binary64_WT_of_40_and_50 :
  Binary64.calculate_WT 40 = 4%float /\ Binary64.calculate_WT 50 = 5%float.
Proof. split; vm_compute; reflexivity. Qed.

(** The expression is a tenth of the diameter only up to rounding: at 7.0
    it is [0.7000000000000002], two units in the last place above [7.0/10]. *)
Lemma binary64_WT_of_7 :
  PrimFloat.eqb (Binary64.calculate_WT 7) (Binary64.tenth 7) = false /\
  Binary64.calculate_WT 7 =
    PrimFloat.next_up (PrimFloat.next_up (Binary64.tenth 7)).
Proof. split; vm_compute; reflexivity. Qed.

(** The quotient of C4: every binary64 divisor from [2^-54] to [2^-53],
    where [cos(pi/2)] lies, turns the diameter [2^1000] into [Inf]. *)
Lemma binary64_overflow_at_angle_0 :
  (0x1p+1000 / 0x1p-54)%float = infinity /\
  (0x1p+1000 / 0x1p-53)%float = infinity /\
  (0x1p+1000 / 0x1.1a62633145c07p-54)%float = infinity.
Proof. repeat split; vm_compute; reflexivity. Qed.

(** * Further properties of the parameter model *)

Lemma d_assign (a : assignment) (self : FlowValve) :
  _d (fst (assign a self)) = _d self.
Proof.
  destruct a as [v | v | v | v | v]; cbn [assign]; try reflexivity.
  - destruct (Req_dec_T (cos (pi / 2 - v)) 0) as [Hz | Hnz].
    + now rewrite theta_setter_raises.
    + now rewrite theta_setter_returns.
  - destruct (Req_dec_T (cos (pi / 2 - _theta self)) 0) as [Hz | Hnz].
    + now rewrite D_setter_raises.
    + now rewrite D_setter_returns.
Qed.

(** The sensor pipe diameter of every object is 15. *)
Lemma d_reachable (self : FlowValve) : reachable self -> _d self = 15.
Proof.
  induction 1 as [self Hnew | self a _ IH].
  - apply new_FlowValve_inv in Hnew. now subst self.
  - now rewrite d_assign.
Qed.

Lemma reachable_default : reachable default_valve.
Proof. apply reachable_new, new_FlowValve_returns. Qed.

(** X1: the transducer distance is never shorter than the diameter: on
    every object a program can hold whose [cos(pi/2 - theta)] is not zero,
    [|D| <= |P|]; and at a right angle [P = D]. *)
Theorem P_at_least_D (self : FlowValve) :
  reachable self ->
  cos (pi / 2 - theta self) <> 0 ->
  Rabs (D self) <= Rabs (P self) /\
  (theta self = pi / 2 -> P self = D self).
Proof.
  intros Hr Hc. rewrite (P_current_reachable self Hr Hc). split.
  - set (c := cos (pi / 2 - theta self)) in *.
    assert (Hc1 : Rabs c <= 1).
    { apply Rabs_le. exact (COS_bound (pi / 2 - theta self)). }
    assert (Hc0 : 0 < Rabs c) by (apply Rabs_pos_lt, Hc).
    unfold Rdiv. rewrite Rabs_mult, Rabs_inv.
    pose proof (Rabs_pos (D self)) as HD.
    assert (Hinv : 1 <= / Rabs c).
    { rewrite <- Rinv_1. apply Rinv_le_contravar; assumption. }
    nra.
  - intros ->. rewrite cos_right_angle. field.
Qed.

Lemma P_at_least_D_witness :
  reachable default_valve /\
  cos (pi / 2 - theta default_valve) <> 0 /\
  Rabs (D default_valve) <= Rabs (P default_valve) /\
  (theta default_valve = pi / 2 -> P default_valve = D default_valve).
Proof.
  split; [exact reachable_default |]. split; [exact cos_default_neq0 |].
  exact (P_at_least_D default_valve reachable_default cos_default_neq0).
Defined.

Lemma exec_cons_inv (a : assignment) (rest : list assignment)
    (s s' : FlowValve) :
  exec (a :: rest) s = (s', Returned tt) ->
  exists s1, assign a s = (s1, Returned tt) /\ exec rest s1 = (s', Returned tt).
Proof.
  cbn [exec]. unfold bind.
  destruct (assign a s) as [s1 [[] | e]]; intros Hex.
  - exists s1. split; [reflexivity | exact Hex].
  - discriminate Hex.
Qed.

Lemma theta_setter_returned_inv (v : R) (s s1 : FlowValve) :
  theta_setter v s = (s1, Returned tt) ->
  cos (pi / 2 - v) <> 0 /\
  s1 = with_P (_D s / cos (pi / 2 - v)) (with_theta v s).
Proof.
  destruct (Req_dec_T (cos (pi / 2 - v)) 0) as [Hz | Hnz].
  - rewrite theta_setter_raises by exact Hz. discriminate.
  - rewrite theta_setter_returns by exact Hnz. intros [= <-]. now split.
Qed.

Lemma D_setter_returned_inv (v : R) (s s1 : FlowValve) :
  D_setter v s = (s1, Returned tt) ->
  cos (pi / 2 - _theta s) <> 0 /\
  s1 = with_P (v / cos (pi / 2 - _theta s)) (with_D v s).
Proof.
  destruct (Req_dec_T (cos (pi / 2 - _theta s)) 0) as [Hz | Hnz].
  - rewrite D_setter_raises by exact Hz. discriminate.
  - rewrite D_setter_returns by exact Hnz. intros [= <-]. now split.
Qed.

(** X5: last write wins.  A block of assignments to a new object, each of
    whose angles has a nonzero [cos(pi/2 - angle)], returns normally and
    leaves the object that holds, in each of the five properties, the last
    value the block assigned to it (or the default), the transducer
    distance of the last diameter and angle, the wall thickness 4 and the
    sensor pipe diameter 15. *)
Theorem assignments_last_write_wins
    (prog : list assignment) (self0 : FlowValve) :
  new_FlowValve = Returned self0 ->
  (forall v, In (assign_theta v) prog -> cos (pi / 2 - v) <> 0) ->
  exec prog self0 =
    (mkFlowValve
       (last_assigned assigned_H prog 6)
       (last_assigned assigned_RH prog 3)
       (last_assigned assigned_theta prog (radians 70))
       (last_assigned assigned_D prog 40)
       (last_assigned assigned_L prog 100)
       4 15
       (last_assigned assigned_D prog 40 /
        cos (pi / 2 - last_assigned assigned_theta prog (radians 70))),
     Returned tt).
Proof.
  intros Hnew Hall. apply new_FlowValve_inv in Hnew. subst self0.
  destruct (exec_returns_last_assigned prog default_valve
              cos_default_neq0 eq_refl Hall) as [_ Hex].
  rewrite Hex. cbn [default_valve _H _RH _theta _D _L _WT _d].
  do 2 f_equal. unfold defaultD. lra.
Qed.

Lemma assignments_last_write_wins_witness :
  new_FlowValve = Returned default_valve /\
  (forall v,
     In (assign_theta v)
       [assign_theta 0; assign_H 8; assign_D 50; assign_RH 2;
        assign_L 120; assign_D 60; assign_theta (pi / 2); assign_H 12] ->
     cos (pi / 2 - v) <> 0) /\
  exec
    [assign_theta 0; assign_H 8; assign_D 50; assign_RH 2;
     assign_L 120; assign_D 60; assign_theta (pi / 2); assign_H 12]
    default_valve =
    (mkFlowValve 12 2 (pi / 2) 60 120 4 15 (60 / cos (pi / 2 - pi / 2)),
     Returned tt).
Proof.
  assert (Hall : forall v,
     In (assign_theta v)
       [assign_theta 0; assign_H 8; assign_D 50; assign_RH 2;
        assign_L 120; assign_D 60; assign_theta (pi / 2); assign_H 12] ->
     cos (pi / 2 - v) <> 0).
  { intros v Hin. cbn [In] in Hin.
    repeat (destruct Hin as [Hin | Hin];
            [first [discriminate Hin | injection Hin as <-] |]).
    - exact cos_at_0_neq0.
    - rewrite cos_right_angle. lra.
    - contradiction. }
  split; [exact new_FlowValve_returns |]. split; [exact Hall |].
  exact (assignments_last_write_wins
           [assign_theta 0; assign_H 8; assign_D 50; assign_RH 2;
            assign_L 120; assign_D 60; assign_theta (pi / 2); assign_H 12]
           default_valve new_FlowValve_returns Hall).
Defined.

(** * Further properties of the execute handler *)

Lemma ready_default : ready default_valve.
Proof.
  split; [exact default_WT |]. split; [reflexivity |].
  split; [exact cos_default_neq0 | reflexivity].
Qed.

Lemma ready_assign (a : assignment) (s s1 : FlowValve) :
  ready s -> assign a s = (s1, Returned tt) -> ready s1.
Proof.
  intros (HWT & Hd & Hc & HP) Ha.
  destruct a as [v | v | v | v | v]; cbn [assign] in Ha.
  - injection Ha as <-. now repeat split.
  - injection Ha as <-. now repeat split.
  - injection Ha as <-. now repeat split.
  - apply theta_setter_returned_inv in Ha. destruct Ha as [Hv ->].
    now repeat split.
  - apply D_setter_returned_inv in Ha. destruct Ha as [_ ->].
    now repeat split.
Qed.

Lemma same_input_but_text_id (a b : CommandInput) :
  same_input_but_text a b -> id b = id a.
Proof.
  destruct a as [i e | i t]; cbn [same_input_but_text].
  - now intros ->.
  - now intros [text ->].
Qed.

(** One turn of the loop on a value input: the setter chosen by the id, if
    any, runs on the expression; the input is not changed. *)
Lemma execute_value_turn (i : string) (e : R) (s s1 : FlowValve)
    (input' : CommandInput) :
  execute_input (ValueCommandInput i e) s = (s1, Returned input') ->
  input' = ValueCommandInput i e /\
  ((exists a, assign a s = (s1, Returned tt)) \/ s1 = s).
Proof.
  unfold execute_input. cbn [id].
  assert (Hset : forall (setter : R -> method unit) (a : assignment),
             assign a = setter e ->
             on_expression (ValueCommandInput i e) setter s =
               (s1, Returned input') ->
             input' = ValueCommandInput i e /\
             ((exists a, assign a s = (s1, Returned tt)) \/ s1 = s)).
  { intros setter a Ha. cbn [on_expression]. unfold bind, ret.
    destruct (setter e s) as [s2 [[] | ex]] eqn:Hs; [| discriminate].
    intros [= <- <-]. split; [reflexivity |].
    left. exists a. now rewrite Ha. }
  destruct (i =? "theta")%string;
    [exact (Hset theta_setter (assign_theta e) eq_refl) |].
  destruct (i =? "D")%string;
    [exact (Hset D_setter (assign_D e) eq_refl) |].
  destruct (i =? "L")%string;
    [exact (Hset L_setter (assign_L e) eq_refl) |].
  destruct (i =? "RH")%string;
    [exact (Hset RH_setter (assign_RH e) eq_refl) |].
  destruct (i =? "H")%string;
    [exact (Hset H_setter (assign_H e) eq_refl) |].
  destruct (i =? "P")%string.
  { unfold bind, get, ret. cbn [set_formattedText].
    intros [= <- <-]. split; [reflexivity | now right]. }
  destruct (i =? "WT")%string.
  { unfold bind, get, ret. cbn [set_formattedText].
    intros [= <- <-]. split; [reflexivity | now right]. }
  unfold ret. intros [= <- <-]. split; [reflexivity | now right].
Qed.

(** One turn of the loop on a text box: the object is not changed, and only
    the box's text may be. *)
Lemma execute_text_turn (i : string) (t : PyNumber) (s s1 : FlowValve)
    (input' : CommandInput) :
  execute_input (TextBoxCommandInput i t) s = (s1, Returned input') ->
  s1 = s /\
  (exists text, input' = TextBoxCommandInput i text) /\
  execute_input input' s = (s, Returned input').
Proof.
  unfold execute_input at 1. cbn [id].
  destruct (i =? "theta")%string eqn:E1; [discriminate |].
  destruct (i =? "D")%string eqn:E2; [discriminate |].
  destruct (i =? "L")%string eqn:E3; [discriminate |].
  destruct (i =? "RH")%string eqn:E4; [discriminate |].
  destruct (i =? "H")%string eqn:E5; [discriminate |].
  destruct (i =? "P")%string eqn:E6.
  { unfold bind, get, ret. cbn [set_formattedText].
    intros [= <- <-]. split; [reflexivity |]. split; [now eexists |].
    unfold execute_input. cbn [id]. now rewrite E1, E2, E3, E4, E5, E6. }
  destruct (i =? "WT")%string eqn:E7.
  { unfold bind, get, ret. cbn [set_formattedText].
    intros [= <- <-]. split; [reflexivity |]. split; [now eexists |].
    unfold execute_input. cbn [id]. now rewrite E1, E2, E3, E4, E5, E6, E7. }
  unfold ret. intros [= <- <-]. split; [reflexivity |]. split; [now eexists |].
  unfold execute_input. cbn [id]. now rewrite E1, E2, E3, E4, E5, E6, E7.
Qed.

Lemma execute_turn (input input' : CommandInput) (s s1 : FlowValve) :
  execute_input input s = (s1, Returned input') ->
  same_input_but_text input input' /\
  execute_input input' s = (s1, Returned input') /\
  (ready s -> ready s1).
Proof.
  destruct input as [i e | i t]; intros Hex.
  - destruct (execute_value_turn i e s s1 input' Hex) as [-> Hs].
    split; [reflexivity |]. split; [exact Hex |].
    intros Hr. destruct Hs as [[a Ha] | ->]; [| exact Hr].
    exact (ready_assign a s s1 Hr Ha).
  - destruct (execute_text_turn i t s s1 input' Hex) as (-> & Htext & Hagain).
    split; [exact Htext |]. split; [exact Hagain | trivial].
Qed.

Lemma execute_inputs_cons_inv (input : CommandInput)
    (rest inputs' : list CommandInput) (s s' : FlowValve) :
  execute_inputs (input :: rest) s = (s', Returned inputs') ->
  exists s1 input' rest',
    execute_input input s = (s1, Returned input') /\
    execute_inputs rest s1 = (s', Returned rest') /\
    inputs' = input' :: rest'.
Proof.
  cbn [execute_inputs]. unfold bind at 1.
  destruct (execute_input input s) as [s1 [input' | e]] eqn:Hi;
    [| discriminate].
  unfold bind.
  destruct (execute_inputs rest s1) as [s2 [rest' | e]] eqn:Hr;
    [| discriminate].
  unfold ret. intros [= <- <-]. exists s1, input', rest'.
  split; [reflexivity |]. split; [exact Hr | reflexivity].
Qed.

Lemma execute_inputs_spec (inputs : list CommandInput) :
  forall s s' inputs',
    execute_inputs inputs s = (s', Returned inputs') ->
    Forall2 same_input_but_text inputs inputs' /\
    execute_inputs inputs' s = (s', Returned inputs') /\
    (ready s -> ready s').
Proof.
  induction inputs as [| input rest IH]; intros s s' inputs' Hex.
  - cbn [execute_inputs] in Hex. unfold ret in Hex.
    injection Hex as <- <-. split; [constructor |]. now split.
  - apply execute_inputs_cons_inv in Hex.
    destruct Hex as (s1 & input' & rest' & Hi & Hr & ->).
    destruct (execute_turn input input' s s1 Hi) as (Hsame & Hagain & Hready).
    destruct (IH s1 s' rest' Hr) as (Hsames & Hagains & Hreadys).
    split; [now constructor |]. split.
    + now apply (execute_cons input' input' rest' rest' s s1 s').
    + intros Hs. apply Hreadys, Hready, Hs.
Qed.

Lemma notify_execute_inv (inputs inputs' : list CommandInput)
    (flow_valve : FlowValve) :
  notify_execute inputs = Constructed flow_valve inputs' ->
  execute_inputs inputs default_valve = (flow_valve, Returned inputs').
Proof.
  unfold notify_execute. rewrite new_FlowValve_returns.
  destruct (execute_inputs inputs default_valve) as [s [r | e]];
    [| discriminate].
  now intros [= <- <-].
Qed.

Lemma execute_right_angle_dialog :
  notify_execute (dialog (pi / 2) 50 100 3 6 (PyFloat 0) (PyInt 0)) =
    Constructed
      (mkFlowValve 6 3 (pi / 2) 50 100 4 15 (50 / cos (pi / 2 - pi / 2)))
      (dialog (pi / 2) 50 100 3 6
         (round (50 / cos (pi / 2 - pi / 2)) 2) (round 4 2)).
Proof. apply execute_dialog. rewrite cos_right_angle. lra. Qed.

(** X6: whatever inputs the execute handler is given (any ids, any order,
    repeated or missing ones), the object it calls [create_flow_valve] on
    has the wall thickness 4 and the sensor pipe diameter 15 of the
    constructor, and the transducer distance of its current diameter and
    angle. *)
Theorem execute_builds_consistent_valves
    (inputs inputs' : list CommandInput) (flow_valve : FlowValve) :
  notify_execute inputs = Constructed flow_valve inputs' ->
  WT flow_valve = 4 /\
  _d flow_valve = 15 /\
  P flow_valve = D flow_valve / cos (pi / 2 - theta flow_valve).
Proof.
  intros Hex. apply notify_execute_inv in Hex.
  destruct (execute_inputs_spec inputs default_valve flow_valve inputs' Hex)
    as (_ & _ & Hready).
  destruct (Hready ready_default) as (HWT & Hd & _ & HP).
  now repeat split.
Qed.

(** The dialog with the angle 0, where [cos(pi/2 - theta)] is about
    [6.1e-17]: the handler builds the valve. *)
Lemma execute_zero_angle_dialog :
  notify_execute (dialog 0 50 100 3 6 (PyFloat 0) (PyInt 0)) =
    Constructed
      (mkFlowValve 6 3 0 50 100 4 15 (50 / cos (pi / 2 - 0)))
      (dialog 0 50 100 3 6 (round (50 / cos (pi / 2 - 0)) 2) (round 4 2)).
Proof. apply execute_dialog, cos_at_0_neq0. Qed.

Lemma execute_builds_consistent_valves_witness :
  notify_execute (dialog 0 50 100 3 6 (PyFloat 0) (PyInt 0)) =
    Constructed
      (mkFlowValve 6 3 0 50 100 4 15 (50 / cos (pi / 2 - 0)))
      (dialog 0 50 100 3 6 (round (50 / cos (pi / 2 - 0)) 2) (round 4 2)) /\
  WT (mkFlowValve 6 3 0 50 100 4 15 (50 / cos (pi / 2 - 0))) = 4 /\
  _d (mkFlowValve 6 3 0 50 100 4 15 (50 / cos (pi / 2 - 0))) = 15 /\
  P (mkFlowValve 6 3 0 50 100 4 15 (50 / cos (pi / 2 - 0))) =
    D (mkFlowValve 6 3 0 50 100 4 15 (50 / cos (pi / 2 - 0))) /
    cos (pi / 2 -
         theta (mkFlowValve 6 3 0 50 100 4 15 (50 / cos (pi / 2 - 0)))).
Proof.
  split; [exact execute_zero_angle_dialog |].
  exact (execute_builds_consistent_valves _ _ _ execute_zero_angle_dialog).
Defined.

(** X7: the execute handler changes nothing in its inputs but the text of
    text boxes: the inputs it leaves are as many, have the same ids in the
    same order, and every value input is as it was. *)
Theorem execute_changes_only_texts
    (inputs inputs' : list CommandInput) (flow_valve : FlowValve) :
  notify_execute inputs = Constructed flow_valve inputs' ->
  Forall2 same_input_but_text inputs inputs' /\
  map id inputs' = map id inputs /\
  List.length inputs' = List.length inputs.
Proof.
  intros Hex. apply notify_execute_inv in Hex.
  destruct (execute_inputs_spec inputs default_valve flow_valve inputs' Hex)
    as (Hsame & _ & _).
  split; [exact Hsame |]. clear Hex.
  induction Hsame as [| a b l l' Hab _ [IHid IHlen]].
  - now split.
  - cbn [map List.length].
    now rewrite (same_input_but_text_id a b Hab), IHid, IHlen.
Qed.

Lemma execute_changes_only_texts_witness :
  notify_execute (dialog (pi / 2) 50 100 3 6 (PyFloat 0) (PyInt 0)) =
    Constructed
      (mkFlowValve 6 3 (pi / 2) 50 100 4 15 (50 / cos (pi / 2 - pi / 2)))
      (dialog (pi / 2) 50 100 3 6
         (round (50 / cos (pi / 2 - pi / 2)) 2) (round 4 2)) /\
  Forall2 same_input_but_text
    (dialog (pi / 2) 50 100 3 6 (PyFloat 0) (PyInt 0))
    (dialog (pi / 2) 50 100 3 6
       (round (50 / cos (pi / 2 - pi / 2)) 2) (round 4 2)) /\
  map id
    (dialog (pi / 2) 50 100 3 6
       (round (50 / cos (pi / 2 - pi / 2)) 2) (round 4 2)) =
    map id (dialog (pi / 2) 50 100 3 6 (PyFloat 0) (PyInt 0)) /\
  List.length
    (dialog (pi / 2) 50 100 3 6
       (round (50 / cos (pi / 2 - pi / 2)) 2) (round 4 2)) =
    List.length (dialog (pi / 2) 50 100 3 6 (PyFloat 0) (PyInt 0)).
Proof.
  split; [exact execute_right_angle_dialog |].
  exact (execute_changes_only_texts _ _ _ execute_right_angle_dialog).
Defined.

(** X8: the execute handler is idempotent on its inputs: run again on the
    inputs it left (as the preview and the final execution of the command
    do, one after the other), it builds the same object and leaves the same
    inputs. *)
Theorem execute_again_builds_the_same
    (inputs inputs' : list CommandInput) (flow_valve : FlowValve) :
  notify_execute inputs = Constructed flow_valve inputs' ->
  notify_execute inputs' = Constructed flow_valve inputs'.
Proof.
  intros Hex. apply notify_execute_inv in Hex.
  destruct (execute_inputs_spec inputs default_valve flow_valve inputs' Hex)
    as (_ & Hagain & _).
  unfold notify_execute. rewrite new_FlowValve_returns. now rewrite Hagain.
Qed.

Lemma execute_again_builds_the_same_witness :
  notify_execute (dialog (pi / 2) 50 100 3 6 (PyFloat 0) (PyInt 0)) =
    Constructed
      (mkFlowValve 6 3 (pi / 2) 50 100 4 15 (50 / cos (pi / 2 - pi / 2)))
      (dialog (pi / 2) 50 100 3 6
         (round (50 / cos (pi / 2 - pi / 2)) 2) (round 4 2)) /\
  notify_execute
    (dialog (pi / 2) 50 100 3 6
       (round (50 / cos (pi / 2 - pi / 2)) 2) (round 4 2)) =
    Constructed
      (mkFlowValve 6 3 (pi / 2) 50 100 4 15 (50 / cos (pi / 2 - pi / 2)))
      (dialog (pi / 2) 50 100 3 6
         (round (50 / cos (pi / 2 - pi / 2)) 2) (round 4 2)).
Proof.
  split; [exact execute_right_angle_dialog |].
  exact (execute_again_builds_the_same _ _ _ execute_right_angle_dialog).
Defined.

(** X9: on the dialog, whatever the user entered (with a nonzero
    [cos(pi/2 - theta)]), the execute handler builds the valve of exactly
    the five values of the dialog, with [P = D / cos(pi/2 - theta)], and
    the [P] box shows that distance rounded to two decimals. *)
Theorem dialog_values_reach_the_valve
    (th d l rh h : R) (p wt : PyNumber) :
  cos (pi / 2 - th) <> 0 ->
  exists flow_valve inputs',
    notify_execute (dialog th d l rh h p wt) =
      Constructed flow_valve inputs' /\
    (theta flow_valve = th /\ D flow_valve = d /\ L flow_valve = l /\
     RH flow_valve = rh /\ H flow_valve = h) /\
    P flow_valve = d / cos (pi / 2 - th) /\
    nth_error inputs' 5 =
      Some (TextBoxCommandInput "P" (round (P flow_valve) 2)).
Proof.
  intros Hc. eexists. eexists.
  split; [exact (execute_dialog th d l rh h p wt Hc) |].
  repeat split.
Qed.

Lemma dialog_values_reach_the_valve_witness :
  cos (pi / 2 - pi / 2) <> 0 /\
  exists flow_valve inputs',
    notify_execute (dialog (pi / 2) 50 100 3 6 (PyFloat 0) (PyInt 0)) =
      Constructed flow_valve inputs' /\
    (theta flow_valve = pi / 2 /\ D flow_valve = 50 /\ L flow_valve = 100 /\
     RH flow_valve = 3 /\ H flow_valve = 6) /\
    P flow_valve = 50 / cos (pi / 2 - pi / 2) /\
    nth_error inputs' 5 =
      Some (TextBoxCommandInput "P" (round (P flow_valve) 2)).
Proof.
  assert (Hc : cos (pi / 2 - pi / 2) <> 0)
    by (rewrite cos_right_angle; lra).
  split; [exact Hc |].
  exact (dialog_values_reach_the_valve (pi / 2) 50 100 3 6
           (PyFloat 0) (PyInt 0) Hc).
Defined.


(** * Properties of the construction *)

(** X10: each of the six bolt-hole patterns of [create_flow_valve] (two
    sensor pipe spool pieces, two main pipe spool pieces, two ball valve
    spool pieces) has the hole count [H] as its quantity, whatever that
    value is. *)
Theorem every_flange_gets_H_holes (self : FlowValve) :
  pattern_quantities (construction self) = repeat (H self) 6.
Proof. run_host. reflexivity. Qed.

(** X11: from the dialog to the host.  For every dialog whose angle has a
    nonzero [cos(pi/2 - theta)], the host calls of the execute handler are
    those of [create_flow_valve] on the valve of the dialog's values: the
    six patterns have the dialog's hole count, the sensor pipe is extruded
    by half the transducer distance plus 70 on each side of its plane, and
    the main pipe has the radii [D/2] and [D/2 - D/10]. *)
Theorem dialog_reaches_the_host (th d l rh h : R) (p wt : PyNumber) :
  cos (pi / 2 - th) <> 0 ->
  notify_execute_calls (dialog th d l rh h p wt) =
    construction (mkFlowValve h rh th d l 4 15 (d / cos (pi / 2 - th))) /\
  pattern_quantities (notify_execute_calls (dialog th d l rh h p wt)) =
    repeat h 6 /\
  extrusions_of 0 0 (notify_execute_calls (dialog th d l rh h p wt)) =
    [d / cos (pi / 2 - th) / 2 + 70] /\
  radii_of_sketch 3 (notify_execute_calls (dialog th d l rh h p wt)) =
    [d / 2; d / 2 - d / 10].
Proof.
  intros Hc. unfold notify_execute_calls.
  rewrite (execute_dialog th d l rh h p wt Hc).
  split; [reflexivity |].
  repeat split; run_host; reflexivity.
Qed.

Lemma dialog_reaches_the_host_witness :
  cos (pi / 2 - pi / 2) <> 0 /\
  notify_execute_calls (dialog (pi / 2) 50 100 3 6 (PyFloat 0) (PyInt 0)) =
    construction
      (mkFlowValve 6 3 (pi / 2) 50 100 4 15 (50 / cos (pi / 2 - pi / 2))) /\
  pattern_quantities
    (notify_execute_calls
       (dialog (pi / 2) 50 100 3 6 (PyFloat 0) (PyInt 0))) =
    repeat 6 6 /\
  extrusions_of 0 0
    (notify_execute_calls
       (dialog (pi / 2) 50 100 3 6 (PyFloat 0) (PyInt 0))) =
    [50 / cos (pi / 2 - pi / 2) / 2 + 70] /\
  radii_of_sketch 3
    (notify_execute_calls
       (dialog (pi / 2) 50 100 3 6 (PyFloat 0) (PyInt 0))) =
    [50 / 2; 50 / 2 - 50 / 10].
Proof.
  assert (Hc : cos (pi / 2 - pi / 2) <> 0)
    by (rewrite cos_right_angle; lra).
  split; [exact Hc |].
  exact (dialog_reaches_the_host (pi / 2) 50 100 3 6
           (PyFloat 0) (PyInt 0) Hc).
Defined.

Lemma main_pipe_radii (self : FlowValve) :
  radii_of_sketch 3 (construction self) =
    [D self / 2; D self / 2 - D self / 10].
Proof. run_host. reflexivity. Qed.

(** X12: the main pipe is built from the current diameter, not from the
    stored wall thickness.  After an assignment [D = v] the main pipe
    sketch has the radii [v/2] and [v/2 - v/10], a wall of a tenth of [v],
    while the stored wall thickness is what it was; and
    [create_flow_valve] never reads the stored one: another value there
    changes no host call. *)
Theorem built_wall_follows_D (self : FlowValve) (v : R) :
  radii_of_sketch 3 (construction (fst (D_setter v self))) =
    [v / 2; v / 2 - v / 10] /\
  v / 2 - (v / 2 - v / 10) = v / 10 /\
  WT (fst (D_setter v self)) = WT self /\
  (forall w,
     construction (with_WT w (fst (D_setter v self))) =
     construction (fst (D_setter v self))).
Proof.
  assert (HD : D (fst (D_setter v self)) = v).
  { destruct (Req_dec_T (cos (pi / 2 - _theta self)) 0) as [Hz | Hnz].
    - now rewrite D_setter_raises.
    - now rewrite D_setter_returns. }
  split; [now rewrite main_pipe_radii, HD |].
  split; [field |].
  split; [exact (WT_assign (assign_D v) self) |].
  intros w. generalize (fst (D_setter v self)). intros s.
  run_host. unfold D, P, H, RH, L, theta. fields. reflexivity.
Qed.

Lemma circle_radii_construction (self : FlowValve) :
  _d self = 15 ->
  circle_radii (construction self) =
    [15 / 2; 15 / 2 - 15 / 10;
     15 - 15 / 10; 15 / 2 - 15 / 10; 2;
     15 - 15 / 10; 15 / 2 - 15 / 10; 2;
     D self / 2; D self / 2 - D self / 10;
     D self; D self / 2 - D self / 10; RH self;
     D self; D self / 2 - D self / 10; RH self;
     15 - 15 / 10; 15 / 2 - 15 / 10; 2;
     15 / 2; 15 / 2 - 15 / 10;
     15 / 2; 15 / 2 + 6;
     15 / 2 - 15 / 10;
     15 / 2 - 15 / 4;
     15 - 15 / 10; 15 / 2 - 15 / 10; 2;
     2.5; 1].
Proof. intros Hd. run_host. rewrite Hd. reflexivity. Qed.

(** X13: on an object a program can hold, every circle that
    [create_flow_valve] draws has a positive radius exactly when the
    diameter [D] and the hole radius [RH] are positive. *)
Theorem radii_positive_iff (self : FlowValve) :
  reachable self ->
  (0 < D self /\ 0 < RH self <->
   Forall (fun r => 0 < r) (circle_radii (construction self))).
Proof.
  intros Hr. rewrite (circle_radii_construction self (d_reachable self Hr)).
  split.
  - intros [HD HRH]. repeat (apply Forall_cons; [lra |]). apply Forall_nil.
  - intros Hall. rewrite Forall_forall in Hall. split.
    + apply (Hall (D self)). cbn [In]. tauto.
    + apply (Hall (RH self)). cbn [In]. tauto.
Qed.

Lemma radii_positive_iff_witness :
  reachable default_valve /\
  (0 < D default_valve /\ 0 < RH default_valve <->
   Forall (fun r => 0 < r) (circle_radii (construction default_valve))).
Proof.
  split; [exact reachable_default |].
  exact (radii_positive_iff default_valve reachable_default).
Defined.

(** X14: the bolt holes of the main pipe spool pieces.  Each of the two
    flange sketches has a rim of radius [D], a bore of radius
    [D/2 - D/10] and a hole of radius [RH] centred at the ordinate
    [D - D/5]; with a non-negative diameter the hole stays between the bore
    and the rim exactly when [RH <= D/5]. *)
Theorem main_flange_holes_fit_iff (self : FlowValve) :
  0 <= D self ->
  map snd (circles_of_sketch 4 (construction self)) =
    [D self; D self / 2 - D self / 10; RH self] /\
  map snd (circles_of_sketch 5 (construction self)) =
    [D self; D self / 2 - D self / 10; RH self] /\
  nth_error (map fst (circles_of_sketch 4 (construction self))) 2 =
    Some (Point3D 0 (D self - D self / 5) 0) /\
  nth_error (map fst (circles_of_sketch 5 (construction self))) 2 =
    Some (Point3D 0 (D self - D self / 5) (- L self)) /\
  (D self / 2 - D self / 10 <= (D self - D self / 5) - RH self /\
   (D self - D self / 5) + RH self <= D self <->
   RH self <= D self / 5).
Proof.
  intros HD.
  split; [run_host; reflexivity |].
  split; [run_host; reflexivity |].
  split; [run_host; reflexivity |].
  split; [run_host; reflexivity |].
  split; intros; lra.
Qed.

Lemma main_flange_holes_fit_iff_witness :
  0 <= D default_valve /\
  map snd (circles_of_sketch 4 (construction default_valve)) =
    [D default_valve; D default_valve / 2 - D default_valve / 10;
     RH default_valve] /\
  map snd (circles_of_sketch 5 (construction default_valve)) =
    [D default_valve; D default_valve / 2 - D default_valve / 10;
     RH default_valve] /\
  nth_error (map fst (circles_of_sketch 4 (construction default_valve))) 2 =
    Some (Point3D 0 (D default_valve - D default_valve / 5) 0) /\
  nth_error (map fst (circles_of_sketch 5 (construction default_valve))) 2 =
    Some (Point3D 0 (D default_valve - D default_valve / 5)
            (- L default_valve)) /\
  (D default_valve / 2 - D default_valve / 10 <=
     (D default_valve - D default_valve / 5) - RH default_valve /\
   (D default_valve - D default_valve / 5) + RH default_valve <=
     D default_valve <->
   RH default_valve <= D default_valve / 5).
Proof.
  assert (HD : 0 <= D default_valve)
    by (unfold D, default_valve, defaultD; cbn [_D]; lra).
  split; [exact HD |].
  exact (main_flange_holes_fit_iff default_valve HD).
Defined.

(** X15: the outline of the handle is drawn and never used.  Its six lines
    and two arcs go to the sketch on the yz plane (the fifteenth sketch);
    no feature is made of a profile of that sketch, and the last extrusion
    of the method takes the profile of the second handle base sketch, the
    circle of radius 1, again. *)
Theorem handle_outline_is_never_extruded (self : FlowValve) :
  nth_error (filter is_sketch (construction self)) 14 =
    Some (sketches_add yZConstructionPlane) /\
  outline_sketches (construction self) =
    [9; 14; 14; 14; 14; 14; 14; 14; 14]%nat /\
  ~ In 14%nat (extruded_sketches (construction self)) /\
  last (construction self) (messageBox "no call") =
    extrudeFeatures_add (one_profile (profiles_item 13 0))
      NewBodyFeatureOperation true 2 /\
  map snd (circles_of_sketch 13 (construction self)) = [1].
Proof.
  split; [run_host; reflexivity |].
  split; [run_host; reflexivity |].
  split.
  - run_host. cbn [In]. intros Hin.
    repeat (destruct Hin as [Hin | Hin]; [discriminate Hin |]).
    exact Hin.
  - split; run_host; reflexivity.
Qed.
